(** * AIDiscoveryFHE: batch lifecycle and oracle-mediated decryption

    A shallow embedding of the Solidity contract [AIDiscoveryFHE]
    (pragma ^0.8.24) and the properties of its batch store, rate limiter
    and decryption callback.

    - [uint256] and [address] values are integers ([Z]); arithmetic is the
      checked arithmetic of Solidity 0.8: an overflowing [+] or [++]
      reverts with [Panic 0x11].
    - A [mapping] is a [gmap] read with the Solidity default for keys that
      were never written.
    - A function body runs in a state-and-error monad over the contract
      storage and the event log.  A revert inside the body leaves the
      storage as dirty as the body made it; the transaction wrapper
      [transact] then discards it, as the EVM does.
    - The encrypted-arithmetic library, the signature check and keccak256
      are not part of the contract: they are the fields of the class
      [FHE.Lib]. *)

From Stdlib Require Import ZArith List Lia Bool.
From Stdlib Require Import Init.Byte.
From stdpp Require Import base option list gmap relations.

Local Open Scope Z_scope.

(** ** Values *)

(** [euint32] is the library's handle type, a 32-byte word. *)
Abbreviation euint32 := Z (only parsing).
Abbreviation address := Z (only parsing).
Abbreviation uint256 := Z (only parsing).
Abbreviation bytes32 := Z (only parsing).
Abbreviation bytes := (list byte) (only parsing).

Definition MAX_UINT256 : Z := 2 ^ 256 - 1.
Definition MAX_ADDRESS : Z := 2 ^ 160 - 1.

(** The external collaborators the contract calls into. *)
Module FHE.
Class Lib : Type := {
  asEuint32 : uint256 -> euint32;
  add : euint32 -> euint32 -> euint32;
  mul : euint32 -> euint32 -> euint32;
  div : euint32 -> euint32 -> euint32;
  isInitialized : euint32 -> bool;
  toBytes32 : euint32 -> bytes32;
  checkSignatures : uint256 -> bytes -> bytes -> bool;
  (** keccak256 over a sequence of 32-byte words *)
  keccak256 : list Z -> bytes32;
  (** [address(this)] *)
  this : address
}.
End FHE.

(** ** Errors and events *)

Inductive Error : Type :=
| NotOwner
| NotProvider
| Paused
| CooldownActive
| InvalidBatch
| InvalidParameter
| ReplayDetected
| StateMismatch
| InvalidProof
| NotInitialized
| Panic (code : Z)          (* 0x11 arithmetic overflow, 0x32 index out of range *)
| DecodeFailure.            (* abi.decode on malformed input *)

Inductive Event : Type :=
| OwnershipTransferred (previousOwner newOwner : address)
| ProviderAdded (provider : address)
| ProviderRemoved (provider : address)
| PauseToggled (isPaused : bool)
| CooldownSecondsSet (oldCooldown newCooldown : uint256)
| BatchOpened (batchId : uint256)
| BatchClosed (batchId : uint256)
| DataSubmitted (provider : address) (batchId : uint256) (count : uint256)
| DecryptionRequested (requestId batchId : uint256)
| DecryptionCompleted (requestId batchId result : uint256).

(** ** Storage *)

Record DecryptionContext : Type := mkContext {
  batchId : uint256;
  stateHash : bytes32;
  processed : bool
}.

(** What a read of [decryptionContexts[k]] gives for a key never written. *)
Definition emptyContext : DecryptionContext :=
  {| batchId := 0; stateHash := 0; processed := false |}.

Record Storage : Type := mkStorage {
  owner : address;
  isProvider : gmap Z bool;
  paused : bool;
  cooldownSeconds : uint256;
  lastSubmissionTime : gmap Z Z;
  lastDecryptionRequestTime : gmap Z Z;
  currentBatchId : uint256;
  isBatchOpen : gmap Z bool;
  encryptedDataBatches : gmap Z (list euint32);
  decryptionContexts : gmap Z DecryptionContext
}.

(** Reading a mapping: the stored value, or the type's zero value. *)
Definition mget {V : Type} (d : V) (m : gmap Z V) (k : Z) : V :=
  default d (m !! k).

Definition providerOf (s : Storage) (a : address) : bool := mget false (isProvider s) a.
Definition lastSubmissionOf (s : Storage) (a : address) : uint256 := mget 0 (lastSubmissionTime s) a.
Definition lastRequestOf (s : Storage) (a : address) : uint256 := mget 0 (lastDecryptionRequestTime s) a.
Definition batchOpen (s : Storage) (b : uint256) : bool := mget false (isBatchOpen s) b.
Definition batchData (s : Storage) (b : uint256) : list euint32 := mget [] (encryptedDataBatches s) b.
Definition contextOf (s : Storage) (r : uint256) : DecryptionContext := mget emptyContext (decryptionContexts s) r.

Definition set_owner (v : address) (s : Storage) : Storage :=
  mkStorage v (isProvider s) (paused s) (cooldownSeconds s) (lastSubmissionTime s)
    (lastDecryptionRequestTime s) (currentBatchId s) (isBatchOpen s)
    (encryptedDataBatches s) (decryptionContexts s).
Definition set_isProvider (v : gmap Z bool) (s : Storage) : Storage :=
  mkStorage (owner s) v (paused s) (cooldownSeconds s) (lastSubmissionTime s)
    (lastDecryptionRequestTime s) (currentBatchId s) (isBatchOpen s)
    (encryptedDataBatches s) (decryptionContexts s).
Definition set_paused (v : bool) (s : Storage) : Storage :=
  mkStorage (owner s) (isProvider s) v (cooldownSeconds s) (lastSubmissionTime s)
    (lastDecryptionRequestTime s) (currentBatchId s) (isBatchOpen s)
    (encryptedDataBatches s) (decryptionContexts s).
Definition set_cooldownSeconds (v : uint256) (s : Storage) : Storage :=
  mkStorage (owner s) (isProvider s) (paused s) v (lastSubmissionTime s)
    (lastDecryptionRequestTime s) (currentBatchId s) (isBatchOpen s)
    (encryptedDataBatches s) (decryptionContexts s).
Definition set_lastSubmissionTime (v : gmap Z Z) (s : Storage) : Storage :=
  mkStorage (owner s) (isProvider s) (paused s) (cooldownSeconds s) v
    (lastDecryptionRequestTime s) (currentBatchId s) (isBatchOpen s)
    (encryptedDataBatches s) (decryptionContexts s).
Definition set_lastDecryptionRequestTime (v : gmap Z Z) (s : Storage) : Storage :=
  mkStorage (owner s) (isProvider s) (paused s) (cooldownSeconds s) (lastSubmissionTime s)
    v (currentBatchId s) (isBatchOpen s)
    (encryptedDataBatches s) (decryptionContexts s).
Definition set_currentBatchId (v : uint256) (s : Storage) : Storage :=
  mkStorage (owner s) (isProvider s) (paused s) (cooldownSeconds s) (lastSubmissionTime s)
    (lastDecryptionRequestTime s) v (isBatchOpen s)
    (encryptedDataBatches s) (decryptionContexts s).
Definition set_isBatchOpen (v : gmap Z bool) (s : Storage) : Storage :=
  mkStorage (owner s) (isProvider s) (paused s) (cooldownSeconds s) (lastSubmissionTime s)
    (lastDecryptionRequestTime s) (currentBatchId s) v
    (encryptedDataBatches s) (decryptionContexts s).
Definition set_encryptedDataBatches (v : gmap Z (list euint32)) (s : Storage) : Storage :=
  mkStorage (owner s) (isProvider s) (paused s) (cooldownSeconds s) (lastSubmissionTime s)
    (lastDecryptionRequestTime s) (currentBatchId s) (isBatchOpen s)
    v (decryptionContexts s).
Definition set_decryptionContexts (v : gmap Z DecryptionContext) (s : Storage) : Storage :=
  mkStorage (owner s) (isProvider s) (paused s) (cooldownSeconds s) (lastSubmissionTime s)
    (lastDecryptionRequestTime s) (currentBatchId s) (isBatchOpen s)
    (encryptedDataBatches s) v.

(** ** The execution monad *)

Inductive Result (A : Type) : Type :=
| Ok (a : A)
| Revert (e : Error).
Arguments Ok {A} a.
Arguments Revert {A} e.

(** The machine a body runs on: the storage and the events emitted so far. *)
Record Machine : Type := mkMachine {
  storage : Storage;
  log : list Event
}.

Definition M (A : Type) : Type := Machine -> Result A * Machine.

Definition ret {A : Type} (a : A) : M A := fun m => (Ok a, m).

Definition bind {A B : Type} (x : M A) (f : A -> M B) : M B :=
  fun m =>
    match x m with
    | (Ok a, m') => f a m'
    | (Revert e, m') => (Revert e, m')
    end.

Declare Scope sol_scope.
Delimit Scope sol_scope with sol.
Notation "x <- c1 ;; c2" := (bind c1 (fun x => c2))
  (at level 100, c1 at next level, right associativity) : sol_scope.
Notation "c1 ;; c2" := (bind c1 (fun _ => c2))
  (at level 100, right associativity) : sol_scope.
Local Open Scope sol_scope.

Definition revert {A : Type} (e : Error) : M A := fun m => (Revert e, m).
Definition sload {A : Type} (f : Storage -> A) : M A := fun m => (Ok (f (storage m)), m).
Definition sstore (f : Storage -> Storage) : M unit :=
  fun m => (Ok tt, mkMachine (f (storage m)) (log m)).
Definition emit (e : Event) : M unit :=
  fun m => (Ok tt, mkMachine (storage m) (log m ++ [e])).

(** [if (c) revert e;] *)
Definition revert_if (c : bool) (e : Error) : M unit :=
  if c then revert e else ret tt.

(** Checked [a + b] on uint256. *)
Definition checked_add (a b : uint256) : M uint256 :=
  if a + b <=? MAX_UINT256 then ret (a + b) else revert (Panic 17).

(** [arr[i]] on an array: out of range is [Panic 0x32]. *)
Definition index {A : Type} (arr : list A) (i : nat) : M A :=
  match arr !! i with
  | Some v => ret v
  | None => revert (Panic 50)
  end.

(** [for (uint i = start; i < start + count; i++) acc = body(i, acc)] *)
Fixpoint for_from {A : Type} (start count : nat) (body : nat -> A -> M A) (acc : A) : M A :=
  match count with
  | O => ret acc
  | S count' => acc' <- body start acc ;; for_from (S start) count' body acc'
  end.

(** [for (uint i = 0; i < n; i++) ...] *)
Definition for_loop {A : Type} (n : nat) (body : nat -> A -> M A) (acc : A) : M A :=
  for_from 0 n body acc.

(** ** The transaction boundary *)

(** What the chain supplies to one call: [msg.sender], [block.timestamp],
    and the request id the decryption oracle hands out if the call asks
    it for one. *)
Record Env : Type := mkEnv {
  msg_sender : address;
  block_timestamp : uint256;
  oracle_requestId : uint256
}.

Inductive Outcome : Type :=
| Success (s' : Storage) (evs : list Event)
| Failure (e : Error).

(** A call is a transaction: a revert rolls the storage back and drops the log. *)
Definition transact (body : M unit) (s : Storage) : Outcome :=
  match body (mkMachine s []) with
  | (Ok _, m) => Success (storage m) (log m)
  | (Revert e, _) => Failure e
  end.

Definition state_after (s : Storage) (o : Outcome) : Storage :=
  match o with
  | Success s' _ => s'
  | Failure _ => s
  end.

(** ** The contract *)

Section Contract.
Context {L : FHE.Lib}.

(** *** Modifiers *)

Definition onlyOwner (env : Env) (body : M unit) : M unit :=
  o <- sload owner ;;
  revert_if (bool_decide (msg_sender env ≠ o)) NotOwner ;;
  body.

Definition onlyProvider (env : Env) (body : M unit) : M unit :=
  p <- sload (fun s => providerOf s (msg_sender env)) ;;
  revert_if (negb p) NotProvider ;;
  body.

Definition whenNotPaused (body : M unit) : M unit :=
  p <- sload paused ;;
  revert_if p Paused ;;
  body.

Definition submissionRateLimited (env : Env) (body : M unit) : M unit :=
  last <- sload (fun s => lastSubmissionOf s (msg_sender env)) ;;
  cd <- sload cooldownSeconds ;;
  ready <- checked_add last cd ;;
  revert_if (block_timestamp env <? ready) CooldownActive ;;
  sstore (fun s => set_lastSubmissionTime
                     (<[msg_sender env := block_timestamp env]> (lastSubmissionTime s)) s) ;;
  body.

Definition decryptionRequestRateLimited (env : Env) (body : M unit) : M unit :=
  last <- sload (fun s => lastRequestOf s (msg_sender env)) ;;
  cd <- sload cooldownSeconds ;;
  ready <- checked_add last cd ;;
  revert_if (block_timestamp env <? ready) CooldownActive ;;
  sstore (fun s => set_lastDecryptionRequestTime
                     (<[msg_sender env := block_timestamp env]> (lastDecryptionRequestTime s)) s) ;;
  body.

(** *** Construction *)

(** Storage before the constructor runs: every slot zero. *)
Definition zeroStorage : Storage :=
  mkStorage 0 ∅ false 0 ∅ ∅ 0 ∅ ∅ ∅.

Definition constructor (env : Env) : M unit :=
  sstore (set_owner (msg_sender env)) ;;
  emit (OwnershipTransferred 0 (msg_sender env)).

(** *** Administration *)

Definition transferOwnership (env : Env) (newOwner : address) : M unit :=
  onlyOwner env (
    previousOwner <- sload owner ;;
    sstore (set_owner newOwner) ;;
    emit (OwnershipTransferred previousOwner newOwner)).

Definition addProvider (env : Env) (provider : address) : M unit :=
  onlyOwner env (
    revert_if (bool_decide (provider = 0)) InvalidParameter ;;
    sstore (fun s => set_isProvider (<[provider := true]> (isProvider s)) s) ;;
    emit (ProviderAdded provider)).

Definition removeProvider (env : Env) (provider : address) : M unit :=
  onlyOwner env (
    p <- sload (fun s => providerOf s provider) ;;
    revert_if (negb p) InvalidParameter ;;
    sstore (fun s => set_isProvider (delete provider (isProvider s)) s) ;;
    emit (ProviderRemoved provider)).

Definition setPaused (env : Env) (_paused : bool) : M unit :=
  onlyOwner env (
    sstore (set_paused _paused) ;;
    emit (PauseToggled _paused)).

Definition setCooldownSeconds (env : Env) (_cooldownSeconds : uint256) : M unit :=
  onlyOwner env (
    oldCooldown <- sload cooldownSeconds ;;
    sstore (set_cooldownSeconds _cooldownSeconds) ;;
    emit (CooldownSecondsSet oldCooldown _cooldownSeconds)).

(** *** Batches *)

Definition openBatch (env : Env) : M unit :=
  onlyOwner env (whenNotPaused (
    cur <- sload currentBatchId ;;
    next <- checked_add cur 1 ;;
    sstore (set_currentBatchId next) ;;
    id <- sload currentBatchId ;;
    sstore (fun s => set_isBatchOpen (<[id := true]> (isBatchOpen s)) s) ;;
    emit (BatchOpened id))).

Definition closeBatch (env : Env) (batchId : uint256) : M unit :=
  onlyOwner env (
    open <- sload (fun s => batchOpen s batchId) ;;
    revert_if (negb open) InvalidBatch ;;
    sstore (fun s => set_isBatchOpen (<[batchId := false]> (isBatchOpen s)) s) ;;
    emit (BatchClosed batchId)).

Definition _initIfNeeded (v : euint32) : M unit :=
  revert_if (negb (FHE.isInitialized v)) NotInitialized.

(** [encryptedDataBatches[batchId].push(v)] *)
Definition push (batchId : uint256) (v : euint32) (s : Storage) : Storage :=
  set_encryptedDataBatches
    (<[batchId := batchData s batchId ++ [v]]> (encryptedDataBatches s)) s.

Definition submitData_loop (batchId : uint256) (dataPoints : list euint32) : M unit :=
  for_loop (length dataPoints) (fun i _ =>
    v <- index dataPoints i ;;
    _initIfNeeded v ;;
    v' <- index dataPoints i ;;
    sstore (push batchId v')) tt.

Definition submitData (env : Env) (batchId : uint256) (dataPoints : list euint32) : M unit :=
  onlyProvider env (whenNotPaused (submissionRateLimited env (
    open <- sload (fun s => batchOpen s batchId) ;;
    revert_if (negb open) InvalidBatch ;;
    submitData_loop batchId dataPoints ;;
    emit (DataSubmitted (msg_sender env) batchId (Z.of_nat (length dataPoints)))))).

(** *** Aggregation and decryption *)

(** [abi.encode(ctsAsBytes, address(this))] as 32-byte words: the offset
    of the dynamic array, the address, then the array's length and its
    elements. *)
Definition abi_encode (ctsAsBytes : list bytes32) (a : address) : list Z :=
  64 :: a :: Z.of_nat (length ctsAsBytes) :: ctsAsBytes.

Definition _hashCiphertexts (cts : list euint32) : bytes32 :=
  let ctsAsBytes := map FHE.toBytes32 cts in
  FHE.keccak256 (abi_encode ctsAsBytes FHE.this).

(** The summing loop that [requestDiscovery] and [myCallback] both run
    over the batch's storage array [data], from [FHE.asEuint32(0)]. *)
Definition sum_loop (data : list euint32) : M euint32 :=
  for_loop (length data) (fun i sum =>
    d <- index data i ;;
    ret (FHE.add sum d)) (FHE.asEuint32 0).

(** The scaled average both functions then take of [data]:
    [sum.mul(asEuint32(1000)).div(asEuint32(data.length))]. *)
Definition average_of (data : list euint32) : M euint32 :=
  sum <- sum_loop data ;;
  ret (FHE.div (FHE.mul sum (FHE.asEuint32 1000))
               (FHE.asEuint32 (Z.of_nat (length data)))).

(** [FHE.requestDecryption(cts, selector)]: the oracle schedules the
    decryption and answers with a request id. *)
Definition requestDecryption (env : Env) (cts : list euint32) : M uint256 :=
  ret (oracle_requestId env).

Definition requestDiscovery (env : Env) (batchId : uint256) : M unit :=
  onlyProvider env (whenNotPaused (decryptionRequestRateLimited env (
    open <- sload (fun s => batchOpen s batchId) ;;
    revert_if open InvalidBatch ;;
    data <- sload (fun s => batchData s batchId) ;;
    revert_if (bool_decide (length data = 0%nat)) InvalidBatch ;;
    average <- average_of data ;;
    let cts := [average] in
    let stateHash := _hashCiphertexts cts in
    requestId <- requestDecryption env cts ;;
    sstore (fun s => set_decryptionContexts
                       (<[requestId := mkContext batchId stateHash false]>
                          (decryptionContexts s)) s) ;;
    emit (DecryptionRequested requestId batchId)))).

(** Big-endian value of a byte string. *)
Definition be_to_Z (bs : bytes) : Z :=
  fold_left (fun acc b => acc * 256 + Z.of_N (Byte.to_N b)) bs 0.

(** [abi.decode(cleartexts, (uint256))]: the first word; fewer than 32
    bytes revert. *)
Definition abi_decode_uint256 (cleartexts : bytes) : M uint256 :=
  if bool_decide (length cleartexts < 32)%nat then revert DecodeFailure
  else ret (be_to_Z (take 32 cleartexts)).

Definition myCallback (env : Env) (requestId : uint256) (cleartexts proof : bytes) : M unit :=
  done_ <- sload (fun s => processed (contextOf s requestId)) ;;
  revert_if done_ ReplayDetected ;;
  batch <- sload (fun s => batchId (contextOf s requestId)) ;;
  data <- sload (fun s => batchData s batch) ;;
  average <- average_of data ;;
  let cts := [average] in
  let currentHash := _hashCiphertexts cts in
  stored <- sload (fun s => stateHash (contextOf s requestId)) ;;
  revert_if (bool_decide (currentHash ≠ stored)) StateMismatch ;;
  revert_if (negb (FHE.checkSignatures requestId cleartexts proof)) InvalidProof ;;
  result <- abi_decode_uint256 cleartexts ;;
  sstore (fun s =>
    let c := contextOf s requestId in
    set_decryptionContexts
      (<[requestId := mkContext (batchId c) (stateHash c) true]>
         (decryptionContexts s)) s) ;;
  batch' <- sload (fun s => batchId (contextOf s requestId)) ;;
  emit (DecryptionCompleted requestId batch' result).

(** *** External calls *)

Inductive Call : Type :=
| TransferOwnership (newOwner : address)
| AddProvider (provider : address)
| RemoveProvider (provider : address)
| SetPaused (_paused : bool)
| SetCooldownSeconds (_cooldownSeconds : uint256)
| OpenBatch
| CloseBatch (batchId : uint256)
| SubmitData (batchId : uint256) (dataPoints : list euint32)
| RequestDiscovery (batchId : uint256)
| MyCallback (requestId : uint256) (cleartexts proof : bytes).

Definition dispatch (env : Env) (call : Call) : M unit :=
  match call with
  | TransferOwnership newOwner => transferOwnership env newOwner
  | AddProvider provider => addProvider env provider
  | RemoveProvider provider => removeProvider env provider
  | SetPaused p => setPaused env p
  | SetCooldownSeconds c => setCooldownSeconds env c
  | OpenBatch => openBatch env
  | CloseBatch b => closeBatch env b
  | SubmitData b dataPoints => submitData env b dataPoints
  | RequestDiscovery b => requestDiscovery env b
  | MyCallback r cleartexts proof => myCallback env r cleartexts proof
  end.

Definition exec (env : Env) (call : Call) (s : Storage) : Outcome :=
  transact (dispatch env call) s.

Definition deploy (env : Env) : Outcome :=
  transact (constructor env) zeroStorage.

(** *** Runs of the contract *)

(** Senders are accounts and timestamps are uint256 values. *)
Definition wf_env (env : Env) : Prop :=
  0 < msg_sender env <= MAX_ADDRESS /\
  0 <= block_timestamp env <= MAX_UINT256.

(** The oracle hands out unique request ids: the id it returns to
    [requestDiscovery] keys no context yet. *)
Definition oracle_fresh (s : Storage) (env : Env) (call : Call) : Prop :=
  match call with
  | RequestDiscovery _ => decryptionContexts s !! oracle_requestId env = None
  | _ => True
  end.

Inductive step : Storage -> Storage -> Prop :=
| step_exec env call s :
    wf_env env -> oracle_fresh s env call ->
    step s (state_after s (exec env call s)).

Inductive reachable : Storage -> Prop :=
| reachable_deploy env :
    wf_env env -> reachable (state_after zeroStorage (deploy env))
| reachable_step s s' :
    reachable s -> step s s' -> reachable s'.

End Contract.

(** ** A plaintext stand-in for the library

    Handles carry their cleartext in the open: the handle of [v] is
    [v + 1], so that handle [0] is the uninitialized one.  It is used to
    run the contract on concrete inputs. *)

Module Mock.
Definition enc (v : Z) : euint32 := v mod 2 ^ 32 + 1.
Definition dec (h : euint32) : Z := h - 1.

Definition hash (ws : list Z) : bytes32 :=
  1 + fold_left (fun acc w => (acc * 31 + w) mod 2 ^ 255) ws 7.

(** A proof is good when it starts with the byte 01. *)
Definition verify (requestId : uint256) (cleartexts proof : bytes) : bool :=
  match proof with
  | x01 :: _ => true
  | _ => false
  end.

Definition lib : FHE.Lib := {|
  FHE.asEuint32 := enc;
  FHE.add := fun a b => enc (dec a + dec b);
  FHE.mul := fun a b => enc (dec a * dec b);
  FHE.div := fun a b => enc (dec a / dec b);
  FHE.isInitialized := fun h => negb (h =? 0);
  FHE.toBytes32 := fun h => h;
  FHE.checkSignatures := verify;
  FHE.keccak256 := hash;
  FHE.this := 49374
|}.

(** The 32-byte big-endian word of a small number. *)
Definition word (v : Z) : bytes :=
  repeat x00 30 ++ [default x00 (Byte.of_N (Z.to_N (v / 256)));
                    default x00 (Byte.of_N (Z.to_N (v mod 256)))].
End Mock.

(** ** The aggregate, as the specification words it *)

Section Aggregate.
Context {L : FHE.Lib}.

(** The homomorphic sum of all value handles of a batch. *)
Definition spec_homomorphicSum (values : list euint32) : euint32 :=
  fold_left FHE.add values (FHE.asEuint32 0).

(** [sum * SCALE / count] with [SCALE = 1000]: multiply, then divide. *)
Definition spec_computeAggregate (values : list euint32) : euint32 :=
  FHE.div (FHE.mul (spec_homomorphicSum values) (FHE.asEuint32 1000))
          (FHE.asEuint32 (Z.of_nat (length values))).

(** [hash(aggregateHandle, systemInstanceIdentity)]: keccak256 over the
    ABI encoding of the pair of the one-element array holding the handle's
    word and the instance's address.  The head has the offset 0x40 of the
    array and the address; the tail has the array's length 1 and the
    word. *)
Definition spec_stateHash (aggregateHandle : euint32) (instance : address) : bytes32 :=
  FHE.keccak256 [64; instance; 1; FHE.toBytes32 aggregateHandle].

(** [stateHash] for a batch holding [values]: the hash of its aggregate
    handle together with [address(this)]. *)
Definition spec_digest (values : list euint32) : bytes32 :=
  spec_stateHash (spec_computeAggregate values) FHE.this.
End Aggregate.

(** ** The calls in closed form *)

Section ClosedForms.
Context {L : FHE.Lib}.

(** The digest [requestDiscovery] stores and [myCallback] recomputes:
    the hash of the aggregate handle together with [address(this)]. *)
Definition digest_of_batch (s : Storage) (b : uint256) : bytes32 :=
  spec_digest (batchData s b).

(** The machine a callback that passes every check leaves behind. *)
Definition myCallback_done (requestId : uint256) (cleartexts : bytes) (m : Machine) : Machine :=
  let s := storage m in
  let c := contextOf s requestId in
  mkMachine
    (set_decryptionContexts
       (<[requestId := mkContext (batchId c) (stateHash c) true]> (decryptionContexts s)) s)
    (log m ++ [DecryptionCompleted requestId (batchId c) (be_to_Z (take 32 cleartexts))]).

(** The longest prefix of initialized handles: what the submission loop
    has pushed when it stops. *)
Fixpoint initialized_prefix (vs : list euint32) : list euint32 :=
  match vs with
  | [] => []
  | v :: vs' => if FHE.isInitialized v then v :: initialized_prefix vs' else []
  end.

Definition push_all (b : uint256) (vs : list euint32) (s : Storage) : Storage :=
  fold_left (fun s' v => push b v s') vs s.

Definition stamp_submission (env : Env) (s : Storage) : Storage :=
  set_lastSubmissionTime
    (<[msg_sender env := block_timestamp env]> (lastSubmissionTime s)) s.

Definition stamp_request (env : Env) (s : Storage) : Storage :=
  set_lastDecryptionRequestTime
    (<[msg_sender env := block_timestamp env]> (lastDecryptionRequestTime s)) s.

(** The caller gets past [onlyProvider], [whenNotPaused] and
    [submissionRateLimited]. *)
Definition passes_submission_gates (env : Env) (s : Storage) : Prop :=
  providerOf s (msg_sender env) = true /\
  paused s = false /\
  lastSubmissionOf s (msg_sender env) + cooldownSeconds s <= MAX_UINT256 /\
  lastSubmissionOf s (msg_sender env) + cooldownSeconds s <= block_timestamp env.

(** The caller gets past [onlyProvider], [whenNotPaused] and
    [decryptionRequestRateLimited]. *)
Definition passes_request_gates (env : Env) (s : Storage) : Prop :=
  providerOf s (msg_sender env) = true /\
  paused s = false /\
  lastRequestOf s (msg_sender env) + cooldownSeconds s <= MAX_UINT256 /\
  lastRequestOf s (msg_sender env) + cooldownSeconds s <= block_timestamp env.

(** A batch that is closed and whose id the counter has passed. *)
Definition closed_for_good (id : Z) (s : Storage) : Prop :=
  batchOpen s id = false /\ id <= currentBatchId s.
End ClosedForms.

(** ** The rest of the contract, and what its runs keep *)

Section Invariants.
Context {L : FHE.Lib}.

(** [_requireInitialized]: the [view] twin of [_initIfNeeded]. *)
Definition _requireInitialized (v : euint32) : M unit :=
  revert_if (negb (FHE.isInitialized v)) NotInitialized.

(** The storage a call leaves, reverted or not. *)
Definition next_state (env : Env) (call : Call) (s : Storage) : Storage :=
  state_after s (exec env call s).

(** The calls that carry [onlyOwner]. *)
Definition owner_only (call : Call) : bool :=
  match call with
  | TransferOwnership _ | AddProvider _ | RemoveProvider _ | SetPaused _
  | SetCooldownSeconds _ | OpenBatch | CloseBatch _ => true
  | SubmitData _ _ | RequestDiscovery _ | MyCallback _ _ _ => false
  end.

(** The calls that carry [onlyProvider]. *)
Definition provider_only (call : Call) : bool :=
  match call with
  | SubmitData _ _ | RequestDiscovery _ => true
  | _ => false
  end.

(** The administrative part of the storage. *)
Definition same_administration (s s' : Storage) : Prop :=
  owner s' = owner s /\
  isProvider s' = isProvider s /\
  paused s' = paused s /\
  cooldownSeconds s' = cooldownSeconds s /\
  currentBatchId s' = currentBatchId s /\
  isBatchOpen s' = isBatchOpen s.

(** Batch ids in use were allocated by [openBatch]: they lie between 1
    and the counter. *)
Definition ids_allocated (s : Storage) : Prop :=
  0 <= currentBatchId s <= MAX_UINT256 /\
  forall b, batchOpen s b = true \/ batchData s b ≠ [] -> 1 <= b <= currentBatchId s.

(** Every stored context that is not yet processed names a closed batch
    with values, and holds the digest of that batch as it is now. *)
Definition pending_bound (s : Storage) : Prop :=
  forall r c,
    decryptionContexts s !! r = Some c -> processed c = false ->
    batchOpen s (batchId c) = false /\
    batchData s (batchId c) ≠ [] /\
    stateHash c = digest_of_batch s (batchId c).

Definition well_formed (s : Storage) : Prop :=
  ids_allocated s /\ pending_bound s.

(** What a successful call has checked and what it has written. *)
Definition success_of (env : Env) (call : Call) (s s' : Storage) : Prop :=
  match call with
  | TransferOwnership newOwner =>
      msg_sender env = owner s /\ s' = set_owner newOwner s
  | AddProvider provider =>
      msg_sender env = owner s /\ provider ≠ 0 /\
      s' = set_isProvider (<[provider := true]> (isProvider s)) s
  | RemoveProvider provider =>
      msg_sender env = owner s /\ providerOf s provider = true /\
      s' = set_isProvider (delete provider (isProvider s)) s
  | SetPaused p =>
      msg_sender env = owner s /\ s' = set_paused p s
  | SetCooldownSeconds c =>
      msg_sender env = owner s /\ s' = set_cooldownSeconds c s
  | OpenBatch =>
      msg_sender env = owner s /\ paused s = false /\
      currentBatchId s + 1 <= MAX_UINT256 /\
      s' = set_isBatchOpen (<[currentBatchId s + 1 := true]> (isBatchOpen s))
             (set_currentBatchId (currentBatchId s + 1) s)
  | CloseBatch b =>
      msg_sender env = owner s /\ batchOpen s b = true /\
      s' = set_isBatchOpen (<[b := false]> (isBatchOpen s)) s
  | SubmitData b dataPoints =>
      passes_submission_gates env s /\ batchOpen s b = true /\
      forallb FHE.isInitialized dataPoints = true /\
      s' = push_all b dataPoints (stamp_submission env s)
  | RequestDiscovery b =>
      passes_request_gates env s /\ batchOpen s b = false /\ batchData s b ≠ [] /\
      s' = set_decryptionContexts
             (<[oracle_requestId env := mkContext b (digest_of_batch s b) false]>
                (decryptionContexts s))
             (stamp_request env s)
  | MyCallback r cleartexts proof =>
      processed (contextOf s r) = false /\
      digest_of_batch s (batchId (contextOf s r)) = stateHash (contextOf s r) /\
      FHE.checkSignatures r cleartexts proof = true /\
      (32 <= length cleartexts)%nat /\
      s' = set_decryptionContexts
             (<[r := mkContext (batchId (contextOf s r)) (stateHash (contextOf s r)) true]>
                (decryptionContexts s)) s
  end.
End Invariants.

(** ** A concrete run

    The scenario of the specification on the plaintext library: the owner
    sets a cooldown of 60 seconds, admits a provider and opens batch 1; the
    provider submits the handles of 10, 20 and 30; the owner closes the
    batch; the provider requests the discovery and the oracle, which
    answered with request id 7, calls back with the cleartext 20000. *)

Module Demo.
#[local] Existing Instance Mock.lib.

Definition deployer : Z := 659918.
Definition provider : Z := 2827.
Definition stranger : Z := 3710.

(** A call by [who] at time [t]; the oracle would answer with id 7. *)
Definition by_ (who t : Z) : Env := mkEnv who t 7.

Definition after (env : Env) (call : Call) (s : Storage) : Storage :=
  state_after s (exec env call s).

Definition values : list Z := [Mock.enc 10; Mock.enc 20; Mock.enc 30].

Definition s_deployed : Storage := state_after zeroStorage (deploy (by_ deployer 1000)).
Definition s_cooldown : Storage := after (by_ deployer 1010) (SetCooldownSeconds 60) s_deployed.
Definition s_admitted : Storage := after (by_ deployer 1020) (AddProvider provider) s_cooldown.
Definition s_open : Storage := after (by_ deployer 1030) OpenBatch s_admitted.
Definition s_submitted : Storage := after (by_ provider 1100) (SubmitData 1 values) s_open.
Definition s_closed : Storage := after (by_ deployer 1150) (CloseBatch 1) s_submitted.
Definition s_requested : Storage := after (by_ provider 1200) (RequestDiscovery 1) s_closed.
Definition s_completed : Storage :=
  after (by_ stranger 1300) (MyCallback 7 (Mock.word 20000) [x01]) s_requested.

(** The owner raises the cooldown to the largest uint256 after the
    provider's submission at time 1100. *)
Definition s_max_cooldown : Storage :=
  after (by_ deployer 1110) (SetCooldownSeconds MAX_UINT256) s_submitted.
(** The pending request's batch with one more value than it had at request
    time: what [encryptedDataBatches[1].push] would leave, were the batch
    to change between request and callback. *)
Definition s_drifted : Storage := push 1 (Mock.enc 40) s_requested.

(** The owner pauses the contract after closing the batch. *)
Definition s_paused : Storage := after (by_ deployer 1160) (SetPaused true) s_closed.
End Demo.

(** * Properties *)

(** ** Running bodies *)

Ltac unfold_monad :=
  unfold bind, sload, sstore, revert_if, ret, revert, emit, checked_add in *.

Section Loops.
Context {L : FHE.Lib}.

Lemma index_Some {A : Type} (arr : list A) (i : nat) (v : A) (m : Machine) :
  arr !! i = Some v -> index arr i m = (Ok v, m).
Proof. intros H. unfold index. now rewrite H. Qed.

(** The summing loop from index [i] on, for [k] rounds. *)
Lemma sum_from (data : list euint32) (k i : nat) (acc : euint32) (m : Machine) :
  (i + k <= length data)%nat ->
  for_from i k (fun j sum => d <- index data j ;; ret (FHE.add sum d)) acc m
  = (Ok (fold_left FHE.add (take k (drop i data)) acc), m).
Proof.
  revert i acc. induction k as [|k IH]; intros i acc Hle.
  - reflexivity.
  - destruct (lookup_lt_is_Some_2 data i ltac:(lia)) as [d Hd].
    cbn [for_from]. unfold bind at 1. unfold bind at 1.
    rewrite (index_Some _ _ _ _ Hd). unfold ret at 1.
    rewrite IH by lia.
    rewrite (drop_S _ _ _ Hd). reflexivity.
Qed.

(** The source's loop computes the left-to-right homomorphic sum and
    touches neither storage nor log. *)
Lemma sum_loop_spec (data : list euint32) (m : Machine) :
  sum_loop data m = (Ok (spec_homomorphicSum data), m).
Proof.
  unfold sum_loop, for_loop. rewrite sum_from by lia.
  now rewrite drop_0, firstn_all.
Qed.
End Loops.

Section Callback.
Context {L : FHE.Lib}.

Lemma contextOf_insert (s : Storage) (m : gmap Z DecryptionContext) (r : Z)
    (c : DecryptionContext) :
  contextOf (set_decryptionContexts (<[r := c]> m) s) r = c.
Proof. unfold contextOf, mget. cbn. now rewrite lookup_insert_eq. Qed.

Lemma contextOf_insert_ne (s s0 : Storage) (r r' : Z) (c : DecryptionContext) :
  r ≠ r' ->
  contextOf (set_decryptionContexts (<[r := c]> (decryptionContexts s0)) s) r'
  = contextOf s0 r'.
Proof. intros H. unfold contextOf, mget. cbn. now rewrite lookup_insert_ne. Qed.

Lemma contextOf_Some (s : Storage) (r : Z) (c : DecryptionContext) :
  decryptionContexts s !! r = Some c -> contextOf s r = c.
Proof. intros H. unfold contextOf, mget. now rewrite H. Qed.

(** A request id that keys no context reads as the zero context. *)
Lemma contextOf_missing (s : Storage) (r : Z) :
  decryptionContexts s !! r = None -> contextOf s r = emptyContext.
Proof. intros H. unfold contextOf, mget. now rewrite H. Qed.

Lemma average_of_spec (data : list euint32) (m : Machine) :
  average_of data m = (Ok (spec_computeAggregate data), m).
Proof. unfold average_of, bind. now rewrite sum_loop_spec. Qed.

(** The code's [_hashCiphertexts] on the one-element array is the
    specification's hash of the handle with [address(this)]. *)
Lemma hashCiphertexts_singleton (a : Z) :
  _hashCiphertexts [a] = spec_stateHash a FHE.this.
Proof. unfold _hashCiphertexts, abi_encode, spec_stateHash. reflexivity. Qed.

(** [myCallback], check by check. *)
Lemma myCallback_run env rid cl pf m :
  myCallback env rid cl pf m =
    let s := storage m in
    let c := contextOf s rid in
    if processed c then (Revert ReplayDetected, m)
    else if bool_decide (digest_of_batch s (batchId c) ≠ stateHash c)
         then (Revert StateMismatch, m)
    else if negb (FHE.checkSignatures rid cl pf) then (Revert InvalidProof, m)
    else if bool_decide (length cl < 32)%nat then (Revert DecodeFailure, m)
    else (Ok tt, myCallback_done rid cl m).
Proof.
  unfold myCallback, abi_decode_uint256, myCallback_done, digest_of_batch, spec_digest.
  unfold bind at 1. unfold sload at 1. unfold bind at 1. cbn zeta.
  destruct (processed _); [reflexivity|]. unfold revert_if at 1, ret at 1.
  unfold bind at 1, sload at 1. unfold bind at 1, sload at 1.
  unfold bind at 1. rewrite average_of_spec.
  unfold_monad. cbn.
  destruct (bool_decide (_ ≠ _)); [reflexivity|].
  destruct (FHE.checkSignatures _ _ _); [|reflexivity]. cbn.
  destruct (bool_decide (_ < _)%nat); [reflexivity|]. cbn.
  rewrite contextOf_insert. reflexivity.
Qed.

Lemma exec_myCallback env rid cl pf s :
  exec env (MyCallback rid cl pf) s =
    let c := contextOf s rid in
    if processed c then Failure ReplayDetected
    else if bool_decide (digest_of_batch s (batchId c) ≠ stateHash c)
         then Failure StateMismatch
    else if negb (FHE.checkSignatures rid cl pf) then Failure InvalidProof
    else if bool_decide (length cl < 32)%nat then Failure DecodeFailure
    else Success
           (set_decryptionContexts
              (<[rid := mkContext (batchId c) (stateHash c) true]> (decryptionContexts s)) s)
           [DecryptionCompleted rid (batchId c) (be_to_Z (take 32 cl))].
Proof.
  unfold exec, transact, dispatch. rewrite myCallback_run. cbn.
  destruct (processed _); [reflexivity|].
  destruct (bool_decide (_ ≠ _)); [reflexivity|].
  destruct (negb _); [reflexivity|].
  destruct (bool_decide (_ < _)%nat); reflexivity.
Qed.
End Callback.

Section Submit.
Context {L : FHE.Lib}.

Lemma batchData_push (s : Storage) (b : Z) (v : Z) :
  batchData (push b v s) b = batchData s b ++ [v].
Proof. unfold batchData at 1, push, mget. cbn. now rewrite lookup_insert_eq. Qed.

Lemma batchData_push_ne (s : Storage) (b b' : Z) (v : Z) :
  b ≠ b' -> batchData (push b v s) b' = batchData s b'.
Proof. intros H. unfold batchData, push, mget. cbn. now rewrite lookup_insert_ne. Qed.

Lemma batchData_push_all (vs : list Z) (s : Storage) (b : Z) :
  batchData (push_all b vs s) b = batchData s b ++ vs.
Proof.
  revert s. induction vs as [|v vs IH]; intros s; cbn.
  - now rewrite app_nil_r.
  - fold (push_all b vs (push b v s)). rewrite IH, batchData_push.
    now rewrite <- app_assoc.
Qed.

Lemma batchData_push_all_ne (vs : list Z) (s : Storage) (b b' : Z) :
  b ≠ b' -> batchData (push_all b vs s) b' = batchData s b'.
Proof.
  intros Hne. revert s. induction vs as [|v vs IH]; intros s; cbn; [reflexivity|].
  fold (push_all b vs (push b v s)). now rewrite IH, batchData_push_ne.
Qed.

(** Pushing writes [encryptedDataBatches] and nothing else. *)
Lemma push_all_frame (vs : list Z) (s : Storage) (b : Z) :
  push_all b vs s = set_encryptedDataBatches (encryptedDataBatches (push_all b vs s)) s.
Proof.
  revert s. induction vs as [|v vs IH]; intros s; cbn.
  - now destruct s.
  - fold (push_all b vs (push b v s)). rewrite IH at 1. reflexivity.
Qed.

Lemma initialized_prefix_all (vs : list Z) :
  forallb FHE.isInitialized vs = true -> initialized_prefix vs = vs.
Proof.
  induction vs as [|v vs IH]; cbn; [reflexivity|].
  destruct (FHE.isInitialized v); cbn; [|discriminate].
  intros H. now rewrite IH.
Qed.

(** The submission loop from index [length pre] on: it pushes the
    initialized handles it meets and stops at the first that is not. *)
Lemma submit_from (b : Z) (rest pre : list Z) (m : Machine) :
  for_from (length pre) (length rest)
    (fun i _ =>
       v <- index (pre ++ rest) i ;;
       _initIfNeeded v ;;
       v' <- index (pre ++ rest) i ;;
       sstore (push b v')) tt m
  = (if forallb FHE.isInitialized rest then Ok tt else Revert NotInitialized,
     mkMachine (push_all b (initialized_prefix rest) (storage m)) (log m)).
Proof.
  revert pre m. induction rest as [|v rest IH]; intros pre m.
  - cbn. now destruct m.
  - assert (Hv : (pre ++ v :: rest) !! length pre = Some v)
      by apply list_lookup_middle, eq_refl.
    cbn [length for_from forallb initialized_prefix].
    unfold bind at 1. unfold bind at 1. rewrite (index_Some _ _ _ _ Hv).
    unfold bind at 1. unfold _initIfNeeded, revert_if.
    destruct (FHE.isInitialized v); cbn [negb andb].
    + unfold ret at 1. unfold bind at 1. rewrite (index_Some _ _ _ _ Hv).
      unfold sstore at 1.
      replace (S (length pre)) with (length (pre ++ [v])) by (rewrite length_app; cbn; lia).
      replace (pre ++ v :: rest) with ((pre ++ [v]) ++ rest) by now rewrite <- app_assoc.
      rewrite IH. reflexivity.
    + unfold revert. cbn. now destruct m.
Qed.

Lemma submitData_loop_run (b : Z) (dataPoints : list Z) (m : Machine) :
  submitData_loop b dataPoints m
  = (if forallb FHE.isInitialized dataPoints then Ok tt else Revert NotInitialized,
     mkMachine (push_all b (initialized_prefix dataPoints) (storage m)) (log m)).
Proof. exact (submit_from b dataPoints [] m). Qed.

(** The rate limiter's check-and-stamp, on its own. *)
Lemma submissionRateLimited_run (env : Env) (body : M unit) (m : Machine) :
  submissionRateLimited env body m =
    let s := storage m in
    let ready := lastSubmissionOf s (msg_sender env) + cooldownSeconds s in
    if negb (ready <=? MAX_UINT256) then (Revert (Panic 17), m)
    else if block_timestamp env <? ready then (Revert CooldownActive, m)
    else body (mkMachine (stamp_submission env s) (log m)).
Proof.
  unfold submissionRateLimited. unfold_monad. cbn.
  destruct (_ <=? _); cbn; [|reflexivity].
  destruct (_ <? _); reflexivity.
Qed.

Lemma decryptionRequestRateLimited_run (env : Env) (body : M unit) (m : Machine) :
  decryptionRequestRateLimited env body m =
    let s := storage m in
    let ready := lastRequestOf s (msg_sender env) + cooldownSeconds s in
    if negb (ready <=? MAX_UINT256) then (Revert (Panic 17), m)
    else if block_timestamp env <? ready then (Revert CooldownActive, m)
    else body (mkMachine (stamp_request env s) (log m)).
Proof.
  unfold decryptionRequestRateLimited. unfold_monad. cbn.
  destruct (_ <=? _); cbn; [|reflexivity].
  destruct (_ <? _); reflexivity.
Qed.

(** [submitData] as a transaction, gate by gate. *)
Lemma exec_submitData (env : Env) (b : Z) (dataPoints : list Z) (s : Storage) :
  exec env (SubmitData b dataPoints) s =
    let ready := lastSubmissionOf s (msg_sender env) + cooldownSeconds s in
    if negb (providerOf s (msg_sender env)) then Failure NotProvider
    else if paused s then Failure Paused
    else if negb (ready <=? MAX_UINT256) then Failure (Panic 17)
    else if block_timestamp env <? ready then Failure CooldownActive
    else if negb (batchOpen s b) then Failure InvalidBatch
    else if forallb FHE.isInitialized dataPoints
         then Success (push_all b dataPoints (stamp_submission env s))
                      [DataSubmitted (msg_sender env) b (Z.of_nat (length dataPoints))]
    else Failure NotInitialized.
Proof.
  unfold exec, transact, dispatch, submitData, onlyProvider, whenNotPaused.
  unfold bind at 1, sload at 1. unfold bind at 1. cbn [storage].
  destruct (providerOf s (msg_sender env)); cbn [negb revert_if]; [|reflexivity].
  unfold ret at 1. unfold bind at 1, sload at 1. unfold bind at 1. cbn [storage].
  destruct (paused s); cbn [revert_if]; [reflexivity|].
  unfold ret at 1. rewrite submissionRateLimited_run. cbn [storage log].
  destruct (_ <=? MAX_UINT256); cbn [negb]; [|reflexivity].
  destruct (_ <? _); [reflexivity|].
  unfold bind at 1, sload at 1. unfold bind at 1. cbn [storage].
  change (batchOpen (stamp_submission env s) b) with (batchOpen s b).
  destruct (batchOpen s b); cbn [negb revert_if]; [|reflexivity].
  unfold ret at 1. unfold bind at 1. rewrite submitData_loop_run. cbn [storage log].
  destruct (forallb _ _) eqn:Hall; [|reflexivity].
  rewrite initialized_prefix_all by assumption. reflexivity.
Qed.
End Submit.

Section Calls.
Context {L : FHE.Lib}.

Lemma exec_transferOwnership (env : Env) (newOwner : Z) (s : Storage) :
  exec env (TransferOwnership newOwner) s =
    if bool_decide (msg_sender env ≠ owner s) then Failure NotOwner
    else Success (set_owner newOwner s) [OwnershipTransferred (owner s) newOwner].
Proof.
  unfold exec, transact, dispatch, transferOwnership, onlyOwner. unfold_monad. cbn.
  destruct (bool_decide _); reflexivity.
Qed.

Lemma exec_addProvider (env : Env) (provider : Z) (s : Storage) :
  exec env (AddProvider provider) s =
    if bool_decide (msg_sender env ≠ owner s) then Failure NotOwner
    else if bool_decide (provider = 0) then Failure InvalidParameter
    else Success (set_isProvider (<[provider := true]> (isProvider s)) s)
                 [ProviderAdded provider].
Proof.
  unfold exec, transact, dispatch, addProvider, onlyOwner. unfold_monad. cbn.
  destruct (bool_decide (_ ≠ _)); [reflexivity|]. cbn.
  destruct (bool_decide _); reflexivity.
Qed.

Lemma exec_removeProvider (env : Env) (provider : Z) (s : Storage) :
  exec env (RemoveProvider provider) s =
    if bool_decide (msg_sender env ≠ owner s) then Failure NotOwner
    else if negb (providerOf s provider) then Failure InvalidParameter
    else Success (set_isProvider (delete provider (isProvider s)) s)
                 [ProviderRemoved provider].
Proof.
  unfold exec, transact, dispatch, removeProvider, onlyOwner. unfold_monad. cbn.
  destruct (bool_decide (_ ≠ _)); [reflexivity|]. cbn.
  destruct (providerOf s provider); reflexivity.
Qed.

Lemma exec_setPaused (env : Env) (p : bool) (s : Storage) :
  exec env (SetPaused p) s =
    if bool_decide (msg_sender env ≠ owner s) then Failure NotOwner
    else Success (set_paused p s) [PauseToggled p].
Proof.
  unfold exec, transact, dispatch, setPaused, onlyOwner. unfold_monad. cbn.
  destruct (bool_decide _); reflexivity.
Qed.

Lemma exec_setCooldownSeconds (env : Env) (c : Z) (s : Storage) :
  exec env (SetCooldownSeconds c) s =
    if bool_decide (msg_sender env ≠ owner s) then Failure NotOwner
    else Success (set_cooldownSeconds c s) [CooldownSecondsSet (cooldownSeconds s) c].
Proof.
  unfold exec, transact, dispatch, setCooldownSeconds, onlyOwner. unfold_monad. cbn.
  destruct (bool_decide _); reflexivity.
Qed.

Lemma exec_openBatch (env : Env) (s : Storage) :
  exec env OpenBatch s =
    let next := currentBatchId s + 1 in
    if bool_decide (msg_sender env ≠ owner s) then Failure NotOwner
    else if paused s then Failure Paused
    else if negb (next <=? MAX_UINT256) then Failure (Panic 17)
    else Success (set_isBatchOpen (<[next := true]> (isBatchOpen s))
                    (set_currentBatchId next s))
                 [BatchOpened next].
Proof.
  unfold exec, transact, dispatch, openBatch, onlyOwner, whenNotPaused. unfold_monad. cbn.
  destruct (bool_decide _); [reflexivity|]. cbn.
  destruct (paused s); [reflexivity|]. cbn.
  destruct (_ <=? _); reflexivity.
Qed.

Lemma exec_closeBatch (env : Env) (b : Z) (s : Storage) :
  exec env (CloseBatch b) s =
    if bool_decide (msg_sender env ≠ owner s) then Failure NotOwner
    else if negb (batchOpen s b) then Failure InvalidBatch
    else Success (set_isBatchOpen (<[b := false]> (isBatchOpen s)) s) [BatchClosed b].
Proof.
  unfold exec, transact, dispatch, closeBatch, onlyOwner. unfold_monad. cbn.
  destruct (bool_decide _); [reflexivity|]. cbn.
  destruct (batchOpen s b); reflexivity.
Qed.

(** [requestDiscovery] as a transaction, gate by gate. *)
Lemma exec_requestDiscovery (env : Env) (b : Z) (s : Storage) :
  exec env (RequestDiscovery b) s =
    let ready := lastRequestOf s (msg_sender env) + cooldownSeconds s in
    if negb (providerOf s (msg_sender env)) then Failure NotProvider
    else if paused s then Failure Paused
    else if negb (ready <=? MAX_UINT256) then Failure (Panic 17)
    else if block_timestamp env <? ready then Failure CooldownActive
    else if batchOpen s b then Failure InvalidBatch
    else if bool_decide (length (batchData s b) = 0%nat) then Failure InvalidBatch
    else Success
           (set_decryptionContexts
              (<[oracle_requestId env := mkContext b (digest_of_batch s b) false]>
                 (decryptionContexts s))
              (stamp_request env s))
           [DecryptionRequested (oracle_requestId env) b].
Proof.
  unfold exec, transact, dispatch, requestDiscovery, onlyProvider, whenNotPaused.
  unfold bind at 1, sload at 1. unfold bind at 1. cbn [storage].
  destruct (providerOf s (msg_sender env)); cbn [negb revert_if]; [|reflexivity].
  unfold ret at 1. unfold bind at 1, sload at 1. unfold bind at 1. cbn [storage].
  destruct (paused s); cbn [revert_if]; [reflexivity|].
  unfold ret at 1. rewrite decryptionRequestRateLimited_run. cbn [storage log].
  destruct (_ <=? MAX_UINT256); cbn [negb]; [|reflexivity].
  destruct (_ <? _); [reflexivity|].
  unfold bind at 1, sload at 1. unfold bind at 1. cbn [storage].
  change (batchOpen (stamp_request env s) b) with (batchOpen s b).
  destruct (batchOpen s b); cbn [revert_if]; [reflexivity|].
  unfold ret at 1. unfold bind at 1, sload at 1. unfold bind at 1. cbn [storage].
  change (batchData (stamp_request env s) b) with (batchData s b).
  destruct (bool_decide _); cbn [revert_if]; [reflexivity|].
  unfold ret at 1. unfold bind at 1. rewrite average_of_spec.
  unfold requestDecryption. unfold_monad. cbn. reflexivity.
Qed.
End Calls.

(** ** The decryption callback *)

Section CallbackProperties.
Context {L : FHE.Lib}.

(** C1 (as the code has it).  [myCallback] is rejected with
    [ReplayDetected] exactly when a context is stored under the request
    id and its [processed] flag is already true.  A request id that keys
    no context reads as the zero context, whose flag is false: it passes
    the replay check and goes on to the state-hash check. *)
Theorem myCallback_replay_exactly_when_processed
    (env : Env) (requestId : Z) (cleartexts proof : list byte) (s : Storage) :
  exec env (MyCallback requestId cleartexts proof) s = Failure ReplayDetected
  <-> exists c, decryptionContexts s !! requestId = Some c /\ processed c = true.
Proof.
  rewrite exec_myCallback. cbn zeta.
  destruct (decryptionContexts s !! requestId) as [c|] eqn:Hc.
  - rewrite (contextOf_Some _ _ _ Hc). destruct (processed c) eqn:Hp.
    + split; [eauto | reflexivity].
    + split.
      * repeat case_match; discriminate.
      * intros (c' & [= <-] & Hp'). congruence.
  - rewrite (contextOf_missing _ _ Hc). cbn [processed emptyContext]. split.
    + repeat case_match; discriminate.
    + intros (c' & [=] & _).
Qed.

(** C3.  The digest is the hash of the aggregate handle together with
    the system instance identity: keccak256 over the ABI encoding of the
    one-element array of the handle's word and [address(this)]; the
    code's [_hashCiphertexts] computes exactly that.  At request time the
    context stores this digest of the batch's aggregate.  At callback
    time, once the replay check has passed, the same digest is taken of
    the batch as it is then: if it differs from the stored [stateHash] the
    call is rejected with [StateMismatch], nothing is written and the
    context stays unprocessed; if it is equal the call is not rejected
    with [StateMismatch]. *)
Theorem callback_state_binding :
  (forall a : Z,
      _hashCiphertexts [a] = FHE.keccak256 [64; FHE.this; 1; FHE.toBytes32 a]) /\
  (forall (env : Env) (b : Z) (s s' : Storage) (evs : list Event),
      exec env (RequestDiscovery b) s = Success s' evs ->
      contextOf s' (oracle_requestId env)
      = mkContext b
          (FHE.keccak256
             [64; FHE.this; 1; FHE.toBytes32 (spec_computeAggregate (batchData s b))])
          false) /\
  (forall (env : Env) (requestId : Z) (cleartexts proof : list byte) (s : Storage),
      processed (contextOf s requestId) = false ->
      FHE.keccak256
        [64; FHE.this; 1;
         FHE.toBytes32
           (spec_computeAggregate (batchData s (batchId (contextOf s requestId))))]
      ≠ stateHash (contextOf s requestId) ->
      exec env (MyCallback requestId cleartexts proof) s = Failure StateMismatch /\
      snd (myCallback env requestId cleartexts proof (mkMachine s [])) = mkMachine s [] /\
      processed (contextOf (state_after s (exec env (MyCallback requestId cleartexts proof) s))
                           requestId) = false) /\
  (forall (env : Env) (requestId : Z) (cleartexts proof : list byte) (s : Storage),
      processed (contextOf s requestId) = false ->
      FHE.keccak256
        [64; FHE.this; 1;
         FHE.toBytes32
           (spec_computeAggregate (batchData s (batchId (contextOf s requestId))))]
      = stateHash (contextOf s requestId) ->
      exec env (MyCallback requestId cleartexts proof) s ≠ Failure StateMismatch).
Proof.
  split; [exact hashCiphertexts_singleton|]. split; [|split].
  - intros env b s s' evs. rewrite exec_requestDiscovery. cbn zeta.
    repeat case_match; try discriminate.
    intros [= <- _]. apply contextOf_insert.
  - intros env rid cl pf s Hp Hne.
    change (digest_of_batch s (batchId (contextOf s rid)) ≠ stateHash (contextOf s rid))
      in Hne.
    assert (Hexec : exec env (MyCallback rid cl pf) s = Failure StateMismatch).
    { rewrite exec_myCallback. cbn zeta. rewrite Hp.
      now rewrite bool_decide_eq_true_2. }
    split; [exact Hexec|]. split.
    + rewrite myCallback_run. cbn zeta. cbn [storage]. rewrite Hp.
      now rewrite bool_decide_eq_true_2.
    + rewrite Hexec. exact Hp.
  - intros env rid cl pf s Hp Heq.
    change (digest_of_batch s (batchId (contextOf s rid)) = stateHash (contextOf s rid))
      in Heq.
    rewrite exec_myCallback. cbn zeta. rewrite Hp.
    rewrite bool_decide_eq_false_2 by (intros H; now apply H).
    repeat case_match; discriminate.
Qed.

(** C8 (as the code has it).  [requestDiscovery], once past its gates,
    rejects a batch without values with [InvalidBatch]; and the aggregate
    that [requestDiscovery] and [myCallback] both compute over a batch's
    values is the homomorphic sum of the handles, multiplied by the
    handle of 1000 and then divided by the handle of the count.  It is
    this aggregate whose digest a successful [requestDiscovery] stores,
    for a batch that then has values, and whose digest a successful
    [myCallback] has found equal to the stored one. *)
Theorem aggregate_is_scaled_average
    (env : Env) (b : Z) (s : Storage) (data : list Z) (m : Machine) :
  (passes_request_gates env s -> batchData s b = [] ->
   exec env (RequestDiscovery b) s = Failure InvalidBatch) /\
  average_of data m = (Ok (spec_computeAggregate data), m) /\
  (forall s' evs,
      exec env (RequestDiscovery b) s = Success s' evs ->
      batchData s b ≠ [] /\
      stateHash (contextOf s' (oracle_requestId env))
      = _hashCiphertexts [spec_computeAggregate (batchData s b)]) /\
  (forall requestId cleartexts proof s' evs,
      exec env (MyCallback requestId cleartexts proof) s = Success s' evs ->
      stateHash (contextOf s requestId)
      = _hashCiphertexts
          [spec_computeAggregate (batchData s (batchId (contextOf s requestId)))]).
Proof.
  split; [|split; [apply average_of_spec|split]].
  - intros (Hprov & Hpause & Hmax & Hready) Hempty.
    rewrite exec_requestDiscovery. cbn zeta.
    rewrite Hprov, Hpause, Hempty. cbn [negb length].
    rewrite (proj2 (Z.leb_le _ _) Hmax). cbn [negb].
    rewrite (proj2 (Z.ltb_ge _ _) Hready).
    destruct (batchOpen s b); reflexivity.
  - intros s' evs. rewrite exec_requestDiscovery. cbn zeta.
    destruct (negb _); [discriminate|]. destruct (paused s); [discriminate|].
    destruct (negb _); [discriminate|]. destruct (_ <? _); [discriminate|].
    destruct (batchOpen s b); [discriminate|].
    destruct (bool_decide _) eqn:Hlen; [discriminate|].
    apply bool_decide_eq_false in Hlen.
    intros [= <- _]. split.
    + intros Hnil. apply Hlen. now rewrite Hnil.
    + now rewrite contextOf_insert.
  - intros rid cl pf s' evs. rewrite exec_myCallback. cbn zeta.
    destruct (processed _); [discriminate|].
    destruct (bool_decide _) eqn:Hhash; [discriminate|].
    apply bool_decide_eq_false in Hhash. intros _.
    destruct (decide (stateHash (contextOf s rid)
                      = digest_of_batch s (batchId (contextOf s rid)))) as [Heq|Hne].
    + exact Heq.
    + exfalso. apply Hhash. intros Heq. apply Hne. now rewrite Heq.
Qed.

(** The callback never answers [InvalidBatch]: it has no check on the
    number of values. *)
Lemma myCallback_never_InvalidBatch
    (env : Env) (requestId : Z) (cleartexts proof : list byte) (s : Storage) :
  exec env (MyCallback requestId cleartexts proof) s ≠ Failure InvalidBatch.
Proof. rewrite exec_myCallback. cbn zeta. repeat case_match; discriminate. Qed.

(** C9.  The outcome of [myCallback] is the same for any two call
    environments: neither [msg.sender] nor anything else the chain
    supplies enters it. *)
Theorem myCallback_caller_independent
    (env1 env2 : Env) (requestId : Z) (cleartexts proof : list byte) (s : Storage) :
  exec env1 (MyCallback requestId cleartexts proof) s
  = exec env2 (MyCallback requestId cleartexts proof) s /\
  state_after s (exec env1 (MyCallback requestId cleartexts proof) s)
  = state_after s (exec env2 (MyCallback requestId cleartexts proof) s).
Proof.
  assert (H : exec env1 (MyCallback requestId cleartexts proof) s
              = exec env2 (MyCallback requestId cleartexts proof) s)
    by now rewrite !exec_myCallback.
  split; [exact H | now rewrite H].
Qed.
End CallbackProperties.

(** ** Submission and the rate limiter *)

Section SubmitProperties.
Context {L : FHE.Lib}.

Lemma forallb_uninitialized (dataPoints : list Z) :
  (exists v, v ∈ dataPoints /\ FHE.isInitialized v = false) ->
  forallb FHE.isInitialized dataPoints = false.
Proof.
  intros (v & Hin & Hv). apply not_true_is_false. intros Hall.
  rewrite forallb_forall in Hall.
  rewrite (Hall v) in Hv by now apply list_elem_of_In. discriminate.
Qed.

(** What a successful [submitData] tells about the state it ran in. *)
Lemma submitData_success_inv (env : Env) (b : Z) (dataPoints : list Z)
    (s s' : Storage) (evs : list Event) :
  exec env (SubmitData b dataPoints) s = Success s' evs ->
  passes_submission_gates env s /\
  batchOpen s b = true /\
  forallb FHE.isInitialized dataPoints = true /\
  s' = push_all b dataPoints (stamp_submission env s) /\
  evs = [DataSubmitted (msg_sender env) b (Z.of_nat (length dataPoints))].
Proof.
  rewrite exec_submitData. cbn zeta. unfold passes_submission_gates.
  destruct (providerOf s (msg_sender env)); cbn [negb]; [|discriminate].
  destruct (paused s); [discriminate|].
  destruct (_ <=? MAX_UINT256) eqn:Hmax; cbn [negb]; [|discriminate].
  destruct (_ <? _) eqn:Hready; [discriminate|].
  destruct (batchOpen s b); cbn [negb]; [|discriminate].
  destruct (forallb _ _); [|discriminate].
  intros [= <- <-]. apply Z.leb_le in Hmax. apply Z.ltb_ge in Hready.
  repeat split; assumption.
Qed.

Lemma passes_submission_gates_exec (env : Env) (b : Z) (dataPoints : list Z) (s : Storage) :
  passes_submission_gates env s ->
  exec env (SubmitData b dataPoints) s =
    if negb (batchOpen s b) then Failure InvalidBatch
    else if forallb FHE.isInitialized dataPoints
         then Success (push_all b dataPoints (stamp_submission env s))
                      [DataSubmitted (msg_sender env) b (Z.of_nat (length dataPoints))]
    else Failure NotInitialized.
Proof.
  intros (Hprov & Hpause & Hmax & Hready).
  rewrite exec_submitData. cbn zeta. rewrite Hprov, Hpause. cbn [negb].
  rewrite (proj2 (Z.leb_le _ _) Hmax). cbn [negb].
  now rewrite (proj2 (Z.ltb_ge _ _) Hready).
Qed.

(** C5 (as the code has it).  A call that carries an uninitialized
    handle never succeeds, and is rejected with [NotInitialized] once it
    is past the provider, pause and cooldown gates and the batch is open.
    Whatever the rejection, no batch's values change; on success the
    batch holds its old values followed by all supplied ones, and the one
    event emitted carries their count. *)
Theorem submitData_all_or_nothing
    (env : Env) (b : Z) (dataPoints : list Z) (s : Storage) :
  ((exists v, v ∈ dataPoints /\ FHE.isInitialized v = false) ->
     (exists e, exec env (SubmitData b dataPoints) s = Failure e) /\
     (passes_submission_gates env s -> batchOpen s b = true ->
      exec env (SubmitData b dataPoints) s = Failure NotInitialized)) /\
  (forall e, exec env (SubmitData b dataPoints) s = Failure e ->
     state_after s (exec env (SubmitData b dataPoints) s) = s /\
     forall b', batchData (state_after s (exec env (SubmitData b dataPoints) s)) b'
                = batchData s b') /\
  (forall s' evs, exec env (SubmitData b dataPoints) s = Success s' evs ->
     batchData s' b = batchData s b ++ dataPoints /\
     (forall b', b ≠ b' -> batchData s' b' = batchData s b') /\
     evs = [DataSubmitted (msg_sender env) b (Z.of_nat (length dataPoints))]).
Proof.
  split; [|split].
  - intros Hbad. apply forallb_uninitialized in Hbad. split.
    + destruct (exec env (SubmitData b dataPoints) s) as [s' evs|e] eqn:Hexec; [|eauto].
      apply submitData_success_inv in Hexec. destruct Hexec as (_ & _ & Hall & _).
      congruence.
    + intros Hgates Hopen. rewrite passes_submission_gates_exec by assumption.
      now rewrite Hopen, Hbad.
  - intros e ->. cbn. split; reflexivity.
  - intros s' evs Hexec.
    apply submitData_success_inv in Hexec.
    destruct Hexec as (_ & _ & _ & -> & ->). split; [|split].
    + now rewrite batchData_push_all.
    + intros b' Hne. now rewrite batchData_push_all_ne.
    + reflexivity.
Qed.

(** C10.  An empty submission by a provider past the gates, on an open
    batch, succeeds: no batch changes, the provider's submission time is
    stamped, and the event carries the count 0. *)
Theorem submitData_empty_succeeds (env : Env) (b : Z) (s : Storage) :
  wf_env env ->
  providerOf s (msg_sender env) = true ->
  paused s = false ->
  lastSubmissionOf s (msg_sender env) + cooldownSeconds s <= block_timestamp env ->
  batchOpen s b = true ->
  exists s',
    exec env (SubmitData b []) s = Success s' [DataSubmitted (msg_sender env) b 0] /\
    encryptedDataBatches s' = encryptedDataBatches s /\
    (forall b', batchData s' b' = batchData s b') /\
    lastSubmissionOf s' (msg_sender env) = block_timestamp env.
Proof.
  intros (_ & Hts) Hprov Hpause Hready Hopen.
  exists (stamp_submission env s).
  rewrite passes_submission_gates_exec by (repeat split; [assumption..|lia|assumption]).
  rewrite Hopen. cbn. repeat split.
  unfold lastSubmissionOf, mget. cbn. now rewrite lookup_insert_eq.
Qed.

(** C7 (as the code has it).  The check-and-stamp of
    [submissionRateLimited] answers [CooldownActive] exactly when
    [lastTimestamp + cooldownSeconds] fits in a uint256 and [now] is below
    it; it passes exactly when the sum fits and [now] has reached it, and
    then records [now]; a rejected attempt writes nothing.  So after a
    successful [submitData] at time [t1] under cooldown [C], a call by the
    same provider at [t2 < t1 + C] is rejected with [CooldownActive] when
    [t1 + C] fits in a uint256, and a call at [t2 >= t1 + C] is past all
    three gates, the same submission succeeding again. *)
Theorem rate_limiter_check_and_stamp :
  (forall (env : Env) (m : Machine),
      let ready := lastSubmissionOf (storage m) (msg_sender env) + cooldownSeconds (storage m) in
      let r := submissionRateLimited env (ret tt) m in
      (fst r = Revert CooldownActive <->
         ready <= MAX_UINT256 /\ block_timestamp env < ready) /\
      (fst r = Ok tt <-> ready <= MAX_UINT256 /\ ready <= block_timestamp env) /\
      (fst r = Ok tt -> snd r = mkMachine (stamp_submission env (storage m)) (log m)) /\
      (forall e, fst r = Revert e -> snd r = m)) /\
  (forall (env1 env2 : Env) (b : Z) (dataPoints : list Z)
          (s s1 : Storage) (evs : list Event),
      exec env1 (SubmitData b dataPoints) s = Success s1 evs ->
      msg_sender env2 = msg_sender env1 ->
      block_timestamp env2 <= MAX_UINT256 ->
      let C := cooldownSeconds s in
      (forall b' dataPoints',
          block_timestamp env1 + C <= MAX_UINT256 ->
          block_timestamp env2 < block_timestamp env1 + C ->
          exec env2 (SubmitData b' dataPoints') s1 = Failure CooldownActive) /\
      (block_timestamp env1 + C <= block_timestamp env2 ->
          passes_submission_gates env2 s1 /\
          exists s2 evs2, exec env2 (SubmitData b dataPoints) s1 = Success s2 evs2)).
Proof.
  split.
  - intros env m ready r. subst r. rewrite submissionRateLimited_run. cbn zeta.
    fold ready.
    destruct (ready <=? MAX_UINT256) eqn:Hmax; cbn [negb].
    + apply Z.leb_le in Hmax.
      destruct (block_timestamp env <? ready) eqn:Hready; cbn.
      * apply Z.ltb_lt in Hready.
        intuition (first [discriminate | congruence | lia]).
      * apply Z.ltb_ge in Hready.
        intuition (first [discriminate | congruence | lia]).
    + apply Z.leb_gt in Hmax. cbn.
      intuition (first [discriminate | congruence | lia]).
  - intros env1 env2 b dataPoints s s1 evs Hexec Hsender Hts2 C.
    apply submitData_success_inv in Hexec.
    destruct Hexec as ((Hprov & Hpause & Hmax & Hready) & Hopen & Hall & -> & _).
    rewrite push_all_frame.
    set (X := encryptedDataBatches _).
    assert (Hlast : lastSubmissionOf (set_encryptedDataBatches X (stamp_submission env1 s))
                      (msg_sender env2) = block_timestamp env1).
    { unfold lastSubmissionOf, mget. cbn. now rewrite Hsender, lookup_insert_eq. }
    split.
    + intros b' dataPoints' Hfit Hearly.
      rewrite exec_submitData. cbn zeta. rewrite Hlast.
      change (providerOf _ (msg_sender env2)) with (providerOf s (msg_sender env2)).
      change (paused (set_encryptedDataBatches X (stamp_submission env1 s))) with (paused s).
      change (cooldownSeconds (set_encryptedDataBatches X (stamp_submission env1 s))) with C.
      rewrite Hsender, Hprov, Hpause. cbn [negb].
      rewrite (proj2 (Z.leb_le _ _) Hfit). cbn [negb].
      now rewrite (proj2 (Z.ltb_lt _ _) Hearly).
    + intros Hlate.
      assert (Hgates : passes_submission_gates env2
                         (set_encryptedDataBatches X (stamp_submission env1 s))).
      { unfold passes_submission_gates. rewrite Hlast.
        change (providerOf _ (msg_sender env2)) with (providerOf s (msg_sender env2)).
        change (paused (set_encryptedDataBatches X (stamp_submission env1 s))) with (paused s).
        change (cooldownSeconds (set_encryptedDataBatches X (stamp_submission env1 s))) with C.
        rewrite Hsender. repeat split; try assumption; lia. }
      split; [exact Hgates|].
      rewrite passes_submission_gates_exec by exact Hgates.
      change (batchOpen (set_encryptedDataBatches X (stamp_submission env1 s)) b)
        with (batchOpen s b).
      rewrite Hopen, Hall. cbn [negb]. eauto.
Qed.
End SubmitProperties.

(** ** Runs: what every later state keeps *)

Ltac rewrite_exec :=
  first [ rewrite exec_transferOwnership | rewrite exec_addProvider
        | rewrite exec_removeProvider | rewrite exec_setPaused
        | rewrite exec_setCooldownSeconds | rewrite exec_openBatch
        | rewrite exec_closeBatch | rewrite exec_submitData
        | rewrite exec_requestDiscovery | rewrite exec_myCallback ].

Ltac split_ifs :=
  repeat match goal with
         | |- context [if ?c then _ else _] => destruct c eqn:?
         end.

(** Case analysis on the call of a step: one goal per call and outcome. *)
Ltac step_cases call :=
  destruct call; rewrite_exec; cbn zeta; split_ifs; cbn [state_after];
  try rewrite push_all_frame.

Section Runs.
Context {L : FHE.Lib}.

Lemma batchOpen_insert (s s0 : Storage) (k k' : Z) (v : bool) :
  batchOpen (set_isBatchOpen (<[k := v]> (isBatchOpen s0)) s) k'
  = if decide (k = k') then v else batchOpen s0 k'.
Proof.
  unfold batchOpen, mget. cbn. rewrite lookup_insert.
  destruct (decide (k = k')); reflexivity.
Qed.

Lemma deploy_state (env : Env) :
  state_after zeroStorage (deploy env) = set_owner (msg_sender env) zeroStorage.
Proof. reflexivity. Qed.

(** *** Processed contexts stay processed *)

Lemma step_keeps_processed (rid : Z) (s s' : Storage) :
  step s s' ->
  processed (contextOf s rid) = true ->
  processed (contextOf s' rid) = true.
Proof.
  intros [env call s0 _ Hfresh] Hp.
  step_cases call; try exact Hp.
  - (* requestDiscovery: the oracle's id is not this one *)
    cbn in Hfresh.
    destruct (decide (oracle_requestId env = rid)) as [<-|Hne].
    + rewrite (contextOf_missing _ _ Hfresh) in Hp. discriminate.
    + now rewrite contextOf_insert_ne.
  - (* myCallback marks its own request and no other *)
    destruct (decide (requestId = rid)) as [<-|Hne].
    + now rewrite contextOf_insert.
    + now rewrite contextOf_insert_ne.
Qed.

Lemma rtc_keeps_processed (rid : Z) (s s' : Storage) :
  rtc step s s' ->
  processed (contextOf s rid) = true ->
  processed (contextOf s' rid) = true.
Proof. induction 1; eauto using step_keeps_processed. Qed.

(** C2.  Once [myCallback] has completed for a request id, every later
    [myCallback] for that id, after any further calls, with any cleartext
    and proof and from any caller, is rejected with [ReplayDetected]. *)
Theorem single_use_decryption
    (env : Env) (requestId : Z) (cleartexts proof : list byte)
    (s s1 s2 : Storage) (evs : list Event) :
  exec env (MyCallback requestId cleartexts proof) s = Success s1 evs ->
  rtc step s1 s2 ->
  forall (env' : Env) (cleartexts' proof' : list byte),
    exec env' (MyCallback requestId cleartexts' proof') s2 = Failure ReplayDetected.
Proof.
  intros Hexec Hrun env' cl' pf'.
  assert (Hp : processed (contextOf s1 requestId) = true).
  { rewrite exec_myCallback in Hexec. cbn zeta in Hexec.
    repeat case_match; try discriminate.
    injection Hexec as <- _. now rewrite contextOf_insert. }
  rewrite exec_myCallback. cbn zeta.
  now rewrite (rtc_keeps_processed _ _ _ Hrun Hp).
Qed.

(** *** Closed batches stay closed *)

(** Every open batch was allocated: its id is at most the counter. *)
Lemma reachable_open_bound (s : Storage) :
  reachable s -> forall b, batchOpen s b = true -> b <= currentBatchId s.
Proof.
  induction 1 as [env _|s s' _ IH Hstep].
  - intros b. rewrite deploy_state. discriminate.
  - destruct Hstep as [env call s _ _]. intros b.
    step_cases call; try (exact (IH b)).
    + (* openBatch *)
      rewrite batchOpen_insert. cbn [currentBatchId set_isBatchOpen set_currentBatchId].
      destruct (decide _) as [<-|_]; [lia|].
      intros Hb. specialize (IH b Hb). lia.
    + (* closeBatch *)
      rewrite batchOpen_insert.
      destruct (decide _); [discriminate|]. exact (IH b).
Qed.

Lemma step_keeps_closed (id : Z) (s s' : Storage) :
  step s s' -> closed_for_good id s -> closed_for_good id s'.
Proof.
  intros [env call s0 _ _] [Hclosed Hbound]. unfold closed_for_good.
  step_cases call; try (split; [exact Hclosed | exact Hbound]).
  - (* openBatch allocates the next id *)
    rewrite batchOpen_insert. cbn [currentBatchId set_isBatchOpen set_currentBatchId].
    destruct (decide _); [lia|]. split; [exact Hclosed | lia].
  - (* closeBatch *)
    rewrite batchOpen_insert. cbn [currentBatchId set_isBatchOpen].
    destruct (decide _); split; first [reflexivity | assumption].
Qed.

Lemma rtc_keeps_closed (id : Z) (s s' : Storage) :
  rtc step s s' -> closed_for_good id s -> closed_for_good id s'.
Proof. induction 1; eauto using step_keeps_closed. Qed.

(** C6 (as the code has it).  Once [closeBatch(id)] has succeeded, the
    batch is closed in every later state, whatever calls follow, and no
    [submitData(id, ...)] ever succeeds again: the call is rejected, with
    [InvalidBatch] once it is past the provider, pause and cooldown
    gates. *)
Theorem closed_batch_stays_closed
    (env0 : Env) (id : Z) (s s1 s2 : Storage) (evs : list Event) :
  reachable s ->
  exec env0 (CloseBatch id) s = Success s1 evs ->
  rtc step s1 s2 ->
  batchOpen s2 id = false /\
  forall (env : Env) (dataPoints : list Z),
    (exists e, exec env (SubmitData id dataPoints) s2 = Failure e) /\
    (passes_submission_gates env s2 ->
     exec env (SubmitData id dataPoints) s2 = Failure InvalidBatch).
Proof.
  intros Hreach Hclose Hrun.
  assert (Hinv : closed_for_good id s1).
  { rewrite exec_closeBatch in Hclose.
    destruct (bool_decide _); [discriminate|].
    destruct (batchOpen s id) eqn:Hopen; [|discriminate].
    injection Hclose as <- _. split.
    - rewrite batchOpen_insert. now destruct (decide _).
    - exact (reachable_open_bound s Hreach id Hopen). }
  destruct (rtc_keeps_closed _ _ _ Hrun Hinv) as [Hclosed _].
  split; [exact Hclosed|]. intros env dataPoints. split.
  - destruct (exec env (SubmitData id dataPoints) s2) as [s' evs'|e] eqn:Hexec; [|eauto].
    apply submitData_success_inv in Hexec. destruct Hexec as (_ & Hopen & _). congruence.
  - intros Hgates. rewrite passes_submission_gates_exec by assumption.
    now rewrite Hclosed.
Qed.

(** *** The owner *)

(** The constructor sets the deployer as owner. *)
Lemma deploy_owner_nonnull (env : Env) :
  wf_env env -> owner (state_after zeroStorage (deploy env)) ≠ 0.
Proof. intros [[Hpos _] _]. rewrite deploy_state. cbn. lia. Qed.

(** Every call other than a [transferOwnership] leaves the owner as it
    is, and [transferOwnership] installs its argument unchecked. *)
Lemma exec_owner (env : Env) (call : Call) (s : Storage) :
  owner (state_after s (exec env call s)) = owner s \/
  exists newOwner, call = TransferOwnership newOwner /\
                   msg_sender env = owner s /\
                   owner (state_after s (exec env call s)) = newOwner.
Proof.
  step_cases call; try (left; reflexivity).
  right. exists newOwner. repeat split.
  match goal with H : bool_decide _ = false |- _ => apply bool_decide_eq_false in H end.
  destruct (decide (msg_sender env = owner s)); [assumption|contradiction].
Qed.

(** C4 (where the code departs).  The owner of a deployed contract can
    hand ownership to the null address: [transferOwnership] has no check
    on its argument, unlike [addProvider], so a state whose owner is
    null is reachable. *)
Theorem owner_null_reachable :
  exists s : Storage, reachable s /\ owner s = 0.
Proof.
  set (env := mkEnv 1 0 0).
  assert (Hwf : wf_env env) by (unfold wf_env, MAX_ADDRESS, MAX_UINT256; cbn; lia).
  exists (state_after (state_after zeroStorage (deploy env))
            (exec env (TransferOwnership 0) (state_after zeroStorage (deploy env)))).
  split.
  - eapply reachable_step; [apply reachable_deploy, Hwf|].
    apply step_exec; [exact Hwf | exact I].
  - rewrite exec_transferOwnership, deploy_state. reflexivity.
Qed.
End Runs.

(** ** The concrete run: outcomes, counterexamples and instances *)

Section DemoRun.
Import Demo.
#[local] Existing Instance Mock.lib.

Ltac compute_wf :=
  unfold wf_env; repeat split;
  first [apply Z.ltb_lt | apply Z.leb_le]; vm_compute; reflexivity.

Lemma reachable_after (env : Env) (call : Call) (s : Storage) :
  reachable s -> wf_env env -> oracle_fresh s env call -> reachable (after env call s).
Proof.
  intros Hs Hwf Hfresh. eapply reachable_step; [exact Hs|].
  now apply step_exec.
Qed.

Lemma s_open_reachable : reachable s_open.
Proof.
  unfold s_open, s_admitted, s_cooldown, s_deployed.
  repeat (apply reachable_after; [| compute_wf | exact I]).
  apply reachable_deploy. compute_wf.
Qed.

Lemma s_submitted_reachable : reachable s_submitted.
Proof. apply reachable_after; [apply s_open_reachable | compute_wf | exact I]. Qed.

(** The scenario of the specification runs as it says: the callback
    completes with the result 20000, and a second one is a replay. *)
Example scenario_completes :
  exec (by_ stranger 1300) (MyCallback 7 (Mock.word 20000) [x01]) s_requested
  = Success s_completed [DecryptionCompleted 7 1 20000] /\
  exec (by_ stranger 1400) (MyCallback 7 (Mock.word 20000) [x01]) s_completed
  = Failure ReplayDetected.
Proof. split; vm_compute; reflexivity. Qed.

(** Multiply before divide: the handles of 1 and 2 average to 1500, not
    to 1000. *)
Example aggregate_multiplies_first :
  Mock.dec (spec_computeAggregate [Mock.enc 1; Mock.enc 2]) = 1500 /\
  Mock.dec (spec_computeAggregate values) = 20000.
Proof. split; vm_compute; reflexivity. Qed.

(** The loop pushes as it goes: when it stops at an uninitialized handle
    the handles before it are already in storage, and it is the revert of
    the transaction that takes them out again. *)
Example submitData_loop_is_rolled_back :
  batchData (storage (snd (submitData_loop 1 [Mock.enc 5; 0] (mkMachine s_open [])))) 1
  = [Mock.enc 5] /\
  fst (submitData_loop 1 [Mock.enc 5; 0] (mkMachine s_open [])) = Revert NotInitialized /\
  batchData (after (by_ provider 1100) (SubmitData 1 [Mock.enc 5; 0]) s_open) 1 = [].
Proof. repeat split; vm_compute; reflexivity. Qed.

(** *** C1 *)

(** No context is stored under request id 9, and the callback for it is
    not rejected as a replay: it reaches the state-hash check. *)
Lemma unknown_request_is_not_a_replay :
  decryptionContexts s_closed !! 9 = None /\
  exec (by_ stranger 1300) (MyCallback 9 (Mock.word 20000) [x01]) s_closed
  = Failure StateMismatch /\
  exec (by_ stranger 1300) (MyCallback 9 (Mock.word 20000) [x01]) s_closed
  ≠ Failure ReplayDetected.
Proof. repeat split; [vm_compute; reflexivity .. | vm_compute; discriminate]. Qed.

(** *** C2 *)

Lemma single_use_decryption_instance :
  exec (by_ stranger 1300) (MyCallback 7 (Mock.word 20000) [x01]) s_requested
  = Success s_completed [DecryptionCompleted 7 1 20000] /\
  rtc step s_completed (after (by_ deployer 1350) OpenBatch s_completed) /\
  exec (by_ provider 1400) (MyCallback 7 (Mock.word 1) [x01])
       (after (by_ deployer 1350) OpenBatch s_completed)
  = Failure ReplayDetected.
Proof.
  assert (H1 : exec (by_ stranger 1300) (MyCallback 7 (Mock.word 20000) [x01]) s_requested
               = Success s_completed [DecryptionCompleted 7 1 20000])
    by (vm_compute; reflexivity).
  assert (H2 : rtc step s_completed (after (by_ deployer 1350) OpenBatch s_completed))
    by (apply rtc_once, step_exec; [compute_wf | exact I]).
  split; [exact H1|]. split; [exact H2|].
  exact (single_use_decryption _ _ _ _ _ _ _ _ H1 H2
           (by_ provider 1400) (Mock.word 1) [x01]).
Defined.

(** *** C3 *)

(** The request of the run stores the hash of the aggregate of the three
    values; with a fourth value in the batch the callback for the stored
    context 7 recomputes another digest and is turned away, and the
    context stays pending. *)
Lemma callback_state_binding_instance :
  contextOf s_requested 7
  = mkContext 1
      (FHE.keccak256 [64; FHE.this; 1; FHE.toBytes32 (spec_computeAggregate values)])
      false /\
  contextOf s_drifted 7 = contextOf s_requested 7 /\
  batchData s_drifted 1 = values ++ [Mock.enc 40] /\
  exec (by_ stranger 1300) (MyCallback 7 (Mock.word 20000) [x01]) s_drifted
  = Failure StateMismatch /\
  processed
    (contextOf
       (state_after s_drifted
          (exec (by_ stranger 1300) (MyCallback 7 (Mock.word 20000) [x01]) s_drifted)) 7)
  = false.
Proof.
  destruct callback_state_binding as (_ & Hrequest & Hcallback & _).
  split; [|split; [|split]].
  - assert (Hissued : exec (by_ provider 1200) (RequestDiscovery 1) s_closed
                      = Success s_requested [DecryptionRequested 7 1])
      by (vm_compute; reflexivity).
    apply Hrequest in Hissued.
    change (oracle_requestId (by_ provider 1200)) with 7 in Hissued.
    rewrite Hissued. vm_compute. reflexivity.
  - vm_compute. reflexivity.
  - vm_compute. reflexivity.
  - destruct (Hcallback (by_ stranger 1300) 7 (Mock.word 20000) [x01] s_drifted)
      as (Hexec & _ & Hpending).
    + vm_compute. reflexivity.
    + vm_compute. discriminate.
    + split; [exact Hexec | exact Hpending].
Defined.

(** *** C5 *)

(** A stranger submitting an uninitialized handle is turned away as
    [NotProvider], not as [NotInitialized]. *)
Lemma uninitialized_from_stranger_is_NotProvider :
  FHE.isInitialized 0 = false /\
  exec (by_ stranger 1100) (SubmitData 1 [0]) s_open = Failure NotProvider.
Proof. split; vm_compute; reflexivity. Qed.

Lemma passes_gates_s_open : passes_submission_gates (by_ provider 1100) s_open.
Proof.
  repeat split; [vm_compute; reflexivity .. | |];
    apply Z.leb_le; vm_compute; reflexivity.
Qed.

Lemma submitData_all_or_nothing_instance :
  exec (by_ provider 1100) (SubmitData 1 [Mock.enc 5; 0]) s_open = Failure NotInitialized /\
  batchData (after (by_ provider 1100) (SubmitData 1 [Mock.enc 5; 0]) s_open) 1
  = batchData s_open 1 /\
  batchData s_submitted 1 = batchData s_open 1 ++ values.
Proof.
  destruct (submitData_all_or_nothing (by_ provider 1100) 1 [Mock.enc 5; 0] s_open)
    as (Hbad & Hfail & _).
  destruct (submitData_all_or_nothing (by_ provider 1100) 1 values s_open)
    as (_ & _ & Hok).
  assert (Hrejected : exec (by_ provider 1100) (SubmitData 1 [Mock.enc 5; 0]) s_open
                      = Failure NotInitialized).
  { apply Hbad.
    - exists 0. split; [apply list_elem_of_In; cbn; auto | reflexivity].
    - exact passes_gates_s_open.
    - vm_compute. reflexivity. }
  split; [exact Hrejected|]. split.
  - exact (proj2 (Hfail _ Hrejected) 1).
  - refine (proj1 (Hok s_submitted
                     [DataSubmitted provider 1 3] _)).
    vm_compute. reflexivity.
Defined.

(** *** C6 *)

(** After batch 1 is closed, a stranger's submission to it is turned
    away as [NotProvider], not as [InvalidBatch]. *)
Lemma closed_batch_stranger_is_NotProvider :
  exec (by_ deployer 1150) (CloseBatch 1) s_submitted = Success s_closed [BatchClosed 1] /\
  exec (by_ stranger 1160) (SubmitData 1 [Mock.enc 5]) s_closed = Failure NotProvider.
Proof. split; vm_compute; reflexivity. Qed.

Lemma closed_batch_stays_closed_instance :
  batchOpen (after (by_ deployer 1170) OpenBatch s_closed) 1 = false /\
  exec (by_ provider 1180) (SubmitData 1 values) (after (by_ deployer 1170) OpenBatch s_closed)
  = Failure InvalidBatch.
Proof.
  assert (Hclose : exec (by_ deployer 1150) (CloseBatch 1) s_submitted
                   = Success s_closed [BatchClosed 1]) by (vm_compute; reflexivity).
  assert (Hrun : rtc step s_closed (after (by_ deployer 1170) OpenBatch s_closed))
    by (apply rtc_once, step_exec; [compute_wf | exact I]).
  destruct (closed_batch_stays_closed _ _ _ _ _ _ s_submitted_reachable Hclose Hrun)
    as [Hclosed Hsubmit].
  split; [exact Hclosed|].
  apply (Hsubmit (by_ provider 1180) values).
  repeat split; [vm_compute; reflexivity .. | |];
    apply Z.leb_le; vm_compute; reflexivity.
Defined.

(** *** C7 *)

(** With the cooldown at the largest uint256 and a last submission at
    time 1100, a call at 1101 is below [lastTimestamp + cooldownSeconds],
    yet is not rejected with [CooldownActive]: the sum overflows and the
    call panics. *)
Lemma cooldown_overflow_panics :
  block_timestamp (by_ provider 1101)
  < lastSubmissionOf s_max_cooldown provider + cooldownSeconds s_max_cooldown /\
  fst (submissionRateLimited (by_ provider 1101) (ret tt) (mkMachine s_max_cooldown []))
  = Revert (Panic 17) /\
  exec (by_ provider 1101) (SubmitData 1 values) s_max_cooldown = Failure (Panic 17).
Proof.
  split; [apply Z.ltb_lt; vm_compute; reflexivity|].
  split; vm_compute; reflexivity.
Qed.

Lemma rate_limiter_instance :
  exec (by_ provider 1130) (SubmitData 1 values) s_submitted = Failure CooldownActive /\
  (exists s2 evs2,
      exec (by_ provider 1160) (SubmitData 1 values) s_submitted = Success s2 evs2) /\
  snd (submissionRateLimited (by_ provider 1130) (ret tt) (mkMachine s_submitted []))
  = mkMachine s_submitted [].
Proof.
  destruct rate_limiter_check_and_stamp as [Hcheck Htwice].
  assert (Hfirst : exec (by_ provider 1100) (SubmitData 1 values) s_open
                   = Success s_submitted [DataSubmitted provider 1 3])
    by (vm_compute; reflexivity).
  split; [|split].
  - refine (proj1 (Htwice (by_ provider 1100) (by_ provider 1130) 1 values
                          s_open s_submitted _ Hfirst eq_refl _) 1 values _ _).
    + apply Z.leb_le. vm_compute. reflexivity.
    + apply Z.leb_le. vm_compute. reflexivity.
    + apply Z.ltb_lt. vm_compute. reflexivity.
  - refine (proj2 (proj2 (Htwice (by_ provider 1100) (by_ provider 1160) 1 values
                                 s_open s_submitted _ Hfirst eq_refl _) _)).
    + apply Z.leb_le. vm_compute. reflexivity.
    + apply Z.leb_le. vm_compute. reflexivity.
  - destruct (Hcheck (by_ provider 1130) (mkMachine s_submitted [])) as (_ & _ & _ & Hkeep).
    apply (Hkeep CooldownActive). vm_compute. reflexivity.
Defined.

(** *** C8 *)

(** Request id 9 keys no context, so the callback recomputes the
    aggregate of batch 0, which has no values; it is not rejected with
    [InvalidBatch]. *)
Lemma callback_on_empty_batch_is_not_InvalidBatch :
  batchData s_closed (batchId (contextOf s_closed 9)) = [] /\
  exec (by_ provider 1300) (MyCallback 9 (Mock.word 0) [x01]) s_closed
  ≠ Failure InvalidBatch.
Proof. split; [vm_compute; reflexivity | vm_compute; discriminate]. Qed.

Lemma aggregate_is_scaled_average_instance :
  exec (by_ provider 1200) (RequestDiscovery 5) s_closed = Failure InvalidBatch /\
  average_of values (mkMachine s_closed [])
  = (Ok (Mock.enc 20000), mkMachine s_closed []).
Proof.
  destruct (aggregate_is_scaled_average (by_ provider 1200) 5 s_closed values
              (mkMachine s_closed [])) as (Hempty & Havg & _ & _).
  split.
  - apply Hempty; [|vm_compute; reflexivity].
    repeat split; [vm_compute; reflexivity .. | |];
      apply Z.leb_le; vm_compute; reflexivity.
  - rewrite Havg. vm_compute. reflexivity.
Defined.

(** *** C10 *)

Lemma submitData_empty_succeeds_instance :
  exists s',
    exec (by_ provider 1100) (SubmitData 1 []) s_open
    = Success s' [DataSubmitted provider 1 0] /\
    encryptedDataBatches s' = encryptedDataBatches s_open /\
    (forall b', batchData s' b' = batchData s_open b') /\
    lastSubmissionOf s' provider = 1100.
Proof.
  apply (submitData_empty_succeeds (by_ provider 1100) 1 s_open).
  - compute_wf.
  - vm_compute. reflexivity.
  - vm_compute. reflexivity.
  - apply Z.leb_le. vm_compute. reflexivity.
  - vm_compute. reflexivity.
Defined.
End DemoRun.

(** * The rest of the contract *)

(** ** What a successful call has done *)

Section Success.
Context {L : FHE.Lib}.

Lemma exec_success (env : Env) (call : Call) (s s' : Storage) (evs : list Event) :
  exec env call s = Success s' evs -> success_of env call s s'.
Proof.
  destruct call as [newOwner|provider|provider|p|c| |b|b dataPoints|b|r cl pf];
    rewrite_exec; cbn zeta; unfold success_of.
  - destruct (bool_decide _) eqn:Ho; [discriminate|].
    apply bool_decide_eq_false, dec_stable in Ho. intros [= <- _]. auto.
  - destruct (bool_decide (_ ≠ _)) eqn:Ho; [discriminate|].
    apply bool_decide_eq_false, dec_stable in Ho.
    destruct (bool_decide (_ = _)) eqn:Hz; [discriminate|].
    apply bool_decide_eq_false in Hz. intros [= <- _]. auto.
  - destruct (bool_decide _) eqn:Ho; [discriminate|].
    apply bool_decide_eq_false, dec_stable in Ho.
    destruct (providerOf s provider); [|discriminate]. intros [= <- _]. auto.
  - destruct (bool_decide _) eqn:Ho; [discriminate|].
    apply bool_decide_eq_false, dec_stable in Ho. intros [= <- _]. auto.
  - destruct (bool_decide _) eqn:Ho; [discriminate|].
    apply bool_decide_eq_false, dec_stable in Ho. intros [= <- _]. auto.
  - destruct (bool_decide _) eqn:Ho; [discriminate|].
    apply bool_decide_eq_false, dec_stable in Ho.
    destruct (paused s); [discriminate|].
    destruct (_ <=? _) eqn:Hmax; [|discriminate]. apply Z.leb_le in Hmax.
    intros [= <- _]. auto.
  - destruct (bool_decide _) eqn:Ho; [discriminate|].
    apply bool_decide_eq_false, dec_stable in Ho.
    destruct (batchOpen s b); [|discriminate]. intros [= <- _]. auto.
  - rewrite <- exec_submitData. intros H. apply submitData_success_inv in H.
    tauto.
  - unfold passes_request_gates.
    destruct (providerOf s (msg_sender env)); [|discriminate].
    destruct (paused s); [discriminate|]. cbn [negb].
    destruct (_ <=? _) eqn:Hmax; [|discriminate]. apply Z.leb_le in Hmax.
    destruct (_ <? _) eqn:Hready; [discriminate|]. apply Z.ltb_ge in Hready.
    destruct (batchOpen s b); [discriminate|].
    destruct (bool_decide _) eqn:Hlen; [discriminate|].
    apply bool_decide_eq_false in Hlen. intros [= <- _].
    repeat split; try assumption.
    intros Hnil. apply Hlen. now rewrite Hnil.
  - destruct (processed _); [discriminate|].
    destruct (bool_decide (_ ≠ _)) eqn:Hhash; [discriminate|].
    apply bool_decide_eq_false, dec_stable in Hhash.
    destruct (FHE.checkSignatures _ _ _); [|discriminate].
    destruct (bool_decide (_ < _)%nat) eqn:Hlen; [discriminate|].
    apply bool_decide_eq_false in Hlen. intros [= <- _].
    repeat split; try assumption. lia.
Qed.

(** The step from [s] is either a revert, which keeps [s], or a call that
    succeeded. *)
Lemma next_state_cases (env : Env) (call : Call) (s : Storage) :
  next_state env call s = s \/ success_of env call s (next_state env call s).
Proof.
  unfold next_state. destruct (exec env call s) as [s' evs|e] eqn:Hexec.
  - right. exact (exec_success _ _ _ _ _ Hexec).
  - now left.
Qed.

Lemma push_all_fields (b : Z) (vs : list Z) (s : Storage) :
  same_administration s (push_all b vs s) /\
  lastSubmissionTime (push_all b vs s) = lastSubmissionTime s /\
  lastDecryptionRequestTime (push_all b vs s) = lastDecryptionRequestTime s /\
  decryptionContexts (push_all b vs s) = decryptionContexts s.
Proof. rewrite push_all_frame. unfold same_administration. cbn. tauto. Qed.

(** Both handle checks reject exactly the uninitialized handles and write
    nothing. *)
Lemma handle_checks_run (v : Z) (m : Machine) :
  _initIfNeeded v m = _requireInitialized v m /\
  _requireInitialized v m
  = (if FHE.isInitialized v then Ok tt else Revert NotInitialized, m).
Proof.
  split; [reflexivity|]. unfold _requireInitialized, revert_if.
  now destruct (FHE.isInitialized v).
Qed.

Lemma batchOpen_push_all (b k : Z) (vs : list Z) (s : Storage) :
  batchOpen (push_all b vs s) k = batchOpen s k.
Proof. now rewrite push_all_frame. Qed.
End Success.

(** ** Invariants of every reachable state *)

(** Keep the last conjunct of [H], the equation for the new storage, and
    substitute it. *)
Ltac written_state H :=
  repeat match type of H with
         | _ /\ _ => destruct H as [_ H]
         end;
  subst.

Section WellFormed.
Context {L : FHE.Lib}.

Lemma deploy_well_formed (env : Env) :
  well_formed (state_after zeroStorage (deploy env)).
Proof.
  rewrite deploy_state. split.
  - split; [unfold MAX_UINT256; cbn; lia|].
    intros b [Hopen|Hdata]; [discriminate | now destruct Hdata].
  - intros r c Hc. cbn in Hc. rewrite lookup_empty in Hc. discriminate.
Qed.

Lemma ids_allocated_next (env : Env) (call : Call) (s : Storage) :
  ids_allocated s -> ids_allocated (next_state env call s).
Proof.
  intros Hids. destruct (next_state_cases env call s) as [->|Hok]; [exact Hids|].
  destruct Hids as [Hcur Hids]. revert Hok. generalize (next_state env call s) as s'.
  intros s'.
  destruct call as [newOwner|provider|provider|p|c| |b|b dataPoints|b|r cl pf]; cbn [success_of].
  1-5: intros Hok; written_state Hok; split; [exact Hcur | exact Hids].
  - (* openBatch *)
    intros (_ & _ & Hmax & ->). split; [cbn; lia|].
    intros b. rewrite batchOpen_insert. cbn [currentBatchId set_isBatchOpen set_currentBatchId].
    change (batchData (set_isBatchOpen _ (set_currentBatchId _ s)) b) with (batchData s b).
    destruct (decide _) as [<-|_]; [lia|].
    intros Hb. specialize (Hids b Hb). lia.
  - (* closeBatch *)
    intros (_ & _ & ->). split; [exact Hcur|].
    intros b'. rewrite batchOpen_insert.
    change (batchData (set_isBatchOpen _ s) b') with (batchData s b').
    destruct (decide _) as [<-|_]; [|apply Hids].
    intros [?|Hdata]; [discriminate|]. apply Hids. now right.
  - (* submitData *)
    intros (_ & Hopen & _ & ->).
    destruct (push_all_fields b dataPoints (stamp_submission env s))
      as ((_ & _ & _ & _ & Hcur' & _) & _).
    unfold ids_allocated. rewrite Hcur'. split; [exact Hcur|].
    intros b'. rewrite batchOpen_push_all.
    destruct (decide (b = b')) as [<-|Hne].
    + intros _. apply Hids. now left.
    + rewrite batchData_push_all_ne by assumption. apply Hids.
  - intros (_ & _ & _ & ->). split; [exact Hcur | exact Hids].
  - intros (_ & _ & _ & _ & ->). split; [exact Hcur | exact Hids].
Qed.

Lemma pending_bound_next (env : Env) (call : Call) (s : Storage) :
  oracle_fresh s env call ->
  ids_allocated s -> pending_bound s -> pending_bound (next_state env call s).
Proof.
  intros Hfresh [Hcur Hids] Hpend.
  destruct (next_state_cases env call s) as [->|Hok]; [exact Hpend|].
  revert Hok. generalize (next_state env call s) as s'. intros s'.
  destruct call as [newOwner|provider|provider|p|c| |b|b dataPoints|b|r cl pf]; cbn [success_of].
  1-5: intros Hok; written_state Hok; exact Hpend.
  - (* openBatch: the new id is above every batch a context names *)
    intros (_ & _ & Hmax & ->). intros r c Hc Hp.
    destruct (Hpend r c Hc Hp) as (Hclosed & Hdata & Hhash).
    split; [|split; assumption].
    rewrite batchOpen_insert. destruct (decide _) as [Heq|_]; [|exact Hclosed].
    specialize (Hids (batchId c) (or_intror Hdata)). lia.
  - (* closeBatch *)
    intros (_ & _ & ->). intros r c Hc Hp.
    destruct (Hpend r c Hc Hp) as (Hclosed & Hdata & Hhash).
    split; [|split; assumption].
    rewrite batchOpen_insert. now destruct (decide _).
  - (* submitData: the batch written is open, so no context names it *)
    intros (_ & Hopen & _ & ->). intros r c Hc Hp.
    destruct (push_all_fields b dataPoints (stamp_submission env s))
      as (_ & _ & _ & Hctx).
    rewrite Hctx in Hc.
    destruct (Hpend r c Hc Hp) as (Hclosed & Hdata & Hhash).
    assert (Hne : b ≠ batchId c) by congruence.
    rewrite batchOpen_push_all. unfold digest_of_batch.
    rewrite batchData_push_all_ne by assumption.
    split; [exact Hclosed|]. split; [exact Hdata | exact Hhash].
  - (* requestDiscovery: the new context is bound to the batch as it is *)
    intros (_ & Hclosed & Hdata & ->). intros r c Hc Hp.
    cbn in Hc. rewrite lookup_insert in Hc.
    destruct (decide _) as [_|_].
    + injection Hc as <-. cbn [batchId stateHash]. repeat split; assumption.
    + exact (Hpend r c Hc Hp).
  - (* myCallback: the context it writes is processed *)
    intros (_ & _ & _ & _ & ->). intros r' c Hc Hp.
    cbn in Hc. rewrite lookup_insert in Hc.
    destruct (decide _) as [_|_].
    + injection Hc as <-. discriminate.
    + exact (Hpend r' c Hc Hp).
Qed.

Lemma well_formed_next (env : Env) (call : Call) (s : Storage) :
  oracle_fresh s env call -> well_formed s -> well_formed (next_state env call s).
Proof.
  intros Hfresh [Hids Hpend]. split.
  - now apply ids_allocated_next.
  - now apply pending_bound_next.
Qed.

Lemma step_well_formed (s s' : Storage) :
  step s s' -> well_formed s -> well_formed s'.
Proof. intros [env call s0 _ Hfresh]. now apply well_formed_next. Qed.

Lemma reachable_well_formed (s : Storage) : reachable s -> well_formed s.
Proof.
  induction 1 as [env _|s s' _ IH Hstep].
  - apply deploy_well_formed.
  - exact (step_well_formed _ _ Hstep IH).
Qed.
End WellFormed.

(** ** Access control and administration *)

Section Administration.
Context {L : FHE.Lib}.

Lemma not_owner_rejected (env : Env) (call : Call) (s : Storage) :
  msg_sender env ≠ owner s -> owner_only call = true ->
  exec env call s = Failure NotOwner.
Proof.
  intros Hne Hcall.
  destruct call; try discriminate Hcall; rewrite_exec; cbn zeta;
    now rewrite bool_decide_eq_true_2.
Qed.

(** X1.  [onlyOwner] comes first: each of the seven owner-only calls,
    made by anyone but the owner, is rejected with [NotOwner] whatever
    its arguments and whatever the pause flag, and leaves the storage as
    it was. *)
Theorem owner_gate_first (env : Env) (call : Call) (s : Storage) :
  msg_sender env ≠ owner s -> owner_only call = true ->
  exec env call s = Failure NotOwner /\ next_state env call s = s.
Proof.
  intros Hne Hcall. unfold next_state.
  now rewrite (not_owner_rejected env call s Hne Hcall).
Qed.

(** X2.  No call by anyone but the owner changes the owner, the provider
    list, the pause flag, the cooldown, the batch counter or any batch's
    open flag, whether it succeeds or not. *)
Theorem non_owner_keeps_administration (env : Env) (call : Call) (s : Storage) :
  msg_sender env ≠ owner s ->
  same_administration s (next_state env call s).
Proof.
  intros Hne. assert (Hsame : same_administration s s) by (repeat split).
  destruct (next_state_cases env call s) as [->|Hok]; [exact Hsame|].
  revert Hok. generalize (next_state env call s) as s'. intros s'.
  destruct call as [newOwner|provider|provider|p|c| |b|b dataPoints|b|r cl pf]; cbn [success_of].
  1-7: intros [Ho _]; contradiction.
  - intros (_ & _ & _ & ->).
    exact (proj1 (push_all_fields b dataPoints (stamp_submission env s))).
  - intros (_ & _ & _ & ->). exact Hsame.
  - intros (_ & _ & _ & _ & ->). exact Hsame.
Qed.

Lemma not_provider_rejected (env : Env) (call : Call) (s : Storage) :
  providerOf s (msg_sender env) = false -> provider_only call = true ->
  exec env call s = Failure NotProvider.
Proof.
  intros Hp Hcall.
  destruct call; try discriminate Hcall; rewrite_exec; cbn zeta; now rewrite Hp.
Qed.

(** X3.  [onlyProvider] comes first: [submitData] and [requestDiscovery]
    by an address that is not a provider are rejected with [NotProvider],
    whatever the pause flag, the cooldown, the batch and the handles, and
    leave the storage as it was. *)
Theorem provider_gate_first (env : Env) (call : Call) (s : Storage) :
  providerOf s (msg_sender env) = false -> provider_only call = true ->
  exec env call s = Failure NotProvider /\ next_state env call s = s.
Proof.
  intros Hp Hcall. unfold next_state.
  now rewrite (not_provider_rejected env call s Hp Hcall).
Qed.

Lemma providerOf_insert (s : Storage) (p q : Z) (v : bool) :
  providerOf (set_isProvider (<[p := v]> (isProvider s)) s) q
  = if decide (p = q) then v else providerOf s q.
Proof.
  unfold providerOf, mget. cbn. rewrite lookup_insert.
  destruct (decide (p = q)); reflexivity.
Qed.

Lemma providerOf_delete (s s0 : Storage) (p q : Z) :
  providerOf (set_isProvider (delete p (isProvider s0)) s) q
  = if decide (p = q) then false else providerOf s0 q.
Proof.
  unfold providerOf, mget. cbn. rewrite lookup_delete.
  destruct (decide (p = q)); reflexivity.
Qed.

(** X4.  Adding a provider and removing it again: both calls by the
    owner succeed, the address is a provider in between and is none
    afterwards, and every other address keeps the status it had.
    Adding an address that already is a provider succeeds too. *)
Theorem provider_add_remove (env env' : Env) (p : Z) (s : Storage) :
  msg_sender env = owner s -> msg_sender env' = owner s -> p ≠ 0 ->
  exists s1 s2,
    exec env (AddProvider p) s = Success s1 [ProviderAdded p] /\
    providerOf s1 p = true /\
    exec env' (RemoveProvider p) s1 = Success s2 [ProviderRemoved p] /\
    (forall q, providerOf s1 q = if decide (p = q) then true else providerOf s q) /\
    (forall q, providerOf s2 q = if decide (p = q) then false else providerOf s q).
Proof.
  intros Ho Ho' Hp.
  exists (set_isProvider (<[p := true]> (isProvider s)) s).
  eexists. split; [|split; [|split; [|split]]].
  - rewrite exec_addProvider.
    rewrite bool_decide_eq_false_2 by (intros H; now apply H).
    now rewrite bool_decide_eq_false_2.
  - rewrite providerOf_insert. now destruct (decide _).
  - rewrite exec_removeProvider. cbn [owner set_isProvider].
    rewrite bool_decide_eq_false_2 by (intros H; now apply H).
    rewrite providerOf_insert. destruct (decide (p = p)); [|contradiction].
    cbn [negb]. reflexivity.
  - intros q. apply providerOf_insert.
  - intros q. rewrite providerOf_delete. destruct (decide (p = q)); [reflexivity|].
    rewrite providerOf_insert. now destruct (decide (p = q)).
Qed.

Lemma null_provider_next (env : Env) (call : Call) (s : Storage) :
  providerOf s 0 = false -> providerOf (next_state env call s) 0 = false.
Proof.
  intros Hnull. destruct (next_state_cases env call s) as [->|Hok]; [exact Hnull|].
  revert Hok. generalize (next_state env call s) as s'. intros s'.
  destruct call as [newOwner|provider|provider|p|c| |b|b dataPoints|b|r cl pf]; cbn [success_of].
  - intros (_ & ->). exact Hnull.
  - intros (_ & Hp & ->). rewrite providerOf_insert. now destruct (decide _).
  - intros (_ & _ & ->). rewrite providerOf_delete. now destruct (decide _).
  - intros (_ & ->). exact Hnull.
  - intros (_ & ->). exact Hnull.
  - intros (_ & _ & _ & ->). exact Hnull.
  - intros (_ & _ & ->). exact Hnull.
  - intros (_ & _ & _ & ->).
    destruct (push_all_fields b dataPoints (stamp_submission env s))
      as ((_ & Hprov & _) & _).
    unfold providerOf. rewrite Hprov. exact Hnull.
  - intros (_ & _ & _ & ->). exact Hnull.
  - intros (_ & _ & _ & _ & ->). exact Hnull.
Qed.

(** X5.  The null address is never a provider: [addProvider] rejects it
    with [InvalidParameter] and nothing else writes the provider list. *)
Theorem null_address_never_provider (s : Storage) :
  reachable s ->
  providerOf s 0 = false /\
  forall env, msg_sender env = owner s ->
              exec env (AddProvider 0) s = Failure InvalidParameter.
Proof.
  intros Hreach. split.
  - induction Hreach as [env _|s s' _ IH Hstep].
    + reflexivity.
    + destruct Hstep as [env call s _ _]. now apply null_provider_next.
  - intros env Ho. rewrite exec_addProvider.
    rewrite bool_decide_eq_false_2 by (intros H; now apply H).
    now rewrite bool_decide_eq_true_2.
Qed.

(** X6.  Handing the contract over: after a [transferOwnership] to
    another address the former owner is turned away from every
    owner-only call with [NotOwner], and the new owner is let through
    (its [setPaused] succeeds). *)
Theorem ownership_handover (env : Env) (newOwner : Z) (s : Storage) :
  msg_sender env = owner s -> newOwner ≠ owner s ->
  exec env (TransferOwnership newOwner) s
  = Success (set_owner newOwner s) [OwnershipTransferred (owner s) newOwner] /\
  (forall env' call, msg_sender env' = owner s -> owner_only call = true ->
                     exec env' call (set_owner newOwner s) = Failure NotOwner) /\
  (forall env' p, msg_sender env' = newOwner ->
                  exec env' (SetPaused p) (set_owner newOwner s)
                  = Success (set_paused p (set_owner newOwner s)) [PauseToggled p]).
Proof.
  intros Ho Hne. split; [|split].
  - rewrite exec_transferOwnership.
    now rewrite bool_decide_eq_false_2 by (intros H; now apply H).
  - intros env' call Ho' Hcall. apply not_owner_rejected; [|exact Hcall].
    cbn. congruence.
  - intros env' p Ho'. rewrite exec_setPaused. cbn [owner set_owner].
    now rewrite bool_decide_eq_false_2 by (intros H; now apply H).
Qed.

(** X7.  While the contract is paused no batch is opened, no value is
    appended and no decryption is requested: every call leaves the batch
    counter and all batch contents as they are, turns no batch open, and,
    unless it is a callback, leaves the contexts as they are. *)
Theorem paused_freezes_batches (env : Env) (call : Call) (s : Storage) :
  paused s = true ->
  encryptedDataBatches (next_state env call s) = encryptedDataBatches s /\
  currentBatchId (next_state env call s) = currentBatchId s /\
  (forall b, batchOpen (next_state env call s) b = true -> batchOpen s b = true) /\
  match call with
  | MyCallback _ _ _ => True
  | _ => decryptionContexts (next_state env call s) = decryptionContexts s
  end.
Proof.
  intros Hpaused.
  destruct (next_state_cases env call s) as [->|Hok].
  { repeat split; try tauto. now destruct call. }
  revert Hok. generalize (next_state env call s) as s'. intros s'.
  destruct call as [newOwner|provider|provider|p|c| |b|b dataPoints|b|r cl pf]; cbn [success_of].
  1-5: intros Hok; written_state Hok; repeat split; tauto.
  - intros (_ & Hp & _). congruence.
  - intros (_ & _ & ->). repeat split.
    intros b'. rewrite batchOpen_insert. destruct (decide _); [discriminate|tauto].
  - intros ((_ & Hp & _) & _). congruence.
  - intros ((_ & Hp & _) & _). congruence.
  - intros (_ & _ & _ & _ & ->). repeat split. tauto.
Qed.

(** X8.  Pausing and unpausing by the owner restores the storage
    exactly. *)
Theorem pause_round_trip (env env' : Env) (s : Storage) :
  msg_sender env = owner s -> msg_sender env' = owner s -> paused s = false ->
  exec env (SetPaused true) s = Success (set_paused true s) [PauseToggled true] /\
  exec env' (SetPaused false) (set_paused true s) = Success s [PauseToggled false].
Proof.
  intros Ho Ho' Hp. rewrite !exec_setPaused. cbn [owner set_paused].
  rewrite !bool_decide_eq_false_2 by (intros H; now apply H).
  split; [reflexivity|]. destruct s. cbn in Hp. subst. reflexivity.
Qed.
End Administration.

(** ** Batches over runs *)

Section Batches.
Context {L : FHE.Lib}.

Lemma batchData_next (env : Env) (call : Call) (s : Storage) (b : Z) :
  batchData s b `prefix_of` batchData (next_state env call s) b.
Proof.
  destruct (next_state_cases env call s) as [->|Hok]; [reflexivity|].
  revert Hok. generalize (next_state env call s) as s'. intros s'.
  destruct call as [newOwner|provider|provider|p|c| |b0|b0 dataPoints|b0|r cl pf];
    cbn [success_of].
  1-7: intros Hok; written_state Hok; reflexivity.
  - intros (_ & _ & _ & ->). destruct (decide (b0 = b)) as [->|Hne].
    + rewrite batchData_push_all. now apply prefix_app_r.
    + now rewrite batchData_push_all_ne.
  - intros (_ & _ & _ & ->). reflexivity.
  - intros (_ & _ & _ & _ & ->). reflexivity.
Qed.

(** X9.  Batches are append-only: over any run, what a batch held before
    is a prefix of what it holds after; no value is ever removed,
    replaced or reordered. *)
Theorem batches_append_only (s s' : Storage) (b : Z) :
  rtc step s s' -> batchData s b `prefix_of` batchData s' b.
Proof.
  induction 1 as [|s s1 s' Hstep _ IH]; [reflexivity|].
  etransitivity; [|exact IH].
  destruct Hstep as [env call s _ _]. apply batchData_next.
Qed.

Lemma currentBatchId_next (env : Env) (call : Call) (s : Storage) :
  currentBatchId s <= currentBatchId (next_state env call s) <= currentBatchId s + 1.
Proof.
  destruct (next_state_cases env call s) as [->|Hok]; [lia|].
  revert Hok. generalize (next_state env call s) as s'. intros s'.
  destruct call as [newOwner|provider|provider|p|c| |b0|b0 dataPoints|b0|r cl pf];
    cbn [success_of].
  1-5: intros Hok; written_state Hok; cbn; lia.
  - intros (_ & _ & _ & ->). cbn. lia.
  - intros (_ & _ & ->). cbn. lia.
  - intros (_ & _ & _ & ->).
    destruct (push_all_fields b0 dataPoints (stamp_submission env s))
      as ((_ & _ & _ & _ & -> & _) & _). cbn. lia.
  - intros (_ & _ & _ & ->). cbn. lia.
  - intros (_ & _ & _ & _ & ->). cbn. lia.
Qed.

Lemma rtc_counter (s s' : Storage) :
  rtc step s s' -> currentBatchId s <= currentBatchId s'.
Proof.
  induction 1 as [|s s1 s' Hstep _ IH]; [lia|].
  destruct Hstep as [env call s _ _].
  pose proof (currentBatchId_next env call s) as Hnext.
  unfold next_state in Hnext. lia.
Qed.

(** X10.  The batch counter never goes down over a run, a single call
    raises it by at most one, and a batch id is never handed out twice:
    of two [openBatch] calls that succeed, with any run between them, the
    later announces a strictly larger id, each being the counter its call
    leaves. *)
Theorem batch_counter_monotone :
  (forall s s' : Storage, rtc step s s' -> currentBatchId s <= currentBatchId s') /\
  (forall (env : Env) (call : Call) (s : Storage),
      currentBatchId s <= currentBatchId (next_state env call s) <= currentBatchId s + 1) /\
  (forall (env env' : Env) (s s1 s2 s3 : Storage) (evs evs' : list Event),
      exec env OpenBatch s = Success s1 evs ->
      rtc step s1 s2 ->
      exec env' OpenBatch s2 = Success s3 evs' ->
      evs = [BatchOpened (currentBatchId s1)] /\
      evs' = [BatchOpened (currentBatchId s3)] /\
      currentBatchId s1 = currentBatchId s + 1 /\
      currentBatchId s1 < currentBatchId s3).
Proof.
  split; [exact rtc_counter|]. split; [exact currentBatchId_next|].
  intros env env' s s1 s2 s3 evs evs' Hfirst Hrun Hsecond.
  assert (Hopen : forall e t t' es,
             exec e OpenBatch t = Success t' es ->
             es = [BatchOpened (currentBatchId t')] /\
             currentBatchId t' = currentBatchId t + 1).
  { intros e t t' es. rewrite exec_openBatch. cbn zeta.
    destruct (bool_decide _); [discriminate|].
    destruct (paused t); [discriminate|].
    destruct (negb _); [discriminate|].
    intros [= <- <-]. split; reflexivity. }
  destruct (Hopen _ _ _ _ Hfirst) as [-> H1].
  destruct (Hopen _ _ _ _ Hsecond) as [-> H3].
  pose proof (rtc_counter s1 s2 Hrun).
  repeat split; [exact H1 | lia].
Qed.

(** X11.  In every reachable state the counter is a uint256 and every
    batch that is open or holds a value has an id between 1 and the
    counter: batch 0, and ids the counter has not reached, are closed and
    empty. *)
Theorem batch_ids_allocated (s : Storage) :
  reachable s ->
  0 <= currentBatchId s <= MAX_UINT256 /\
  (forall b, batchOpen s b = true \/ batchData s b ≠ [] -> 1 <= b <= currentBatchId s) /\
  batchOpen s 0 = false /\ batchData s 0 = [].
Proof.
  intros Hreach. destruct (reachable_well_formed s Hreach) as [[Hcur Hids] _].
  split; [exact Hcur|]. split; [exact Hids|]. split.
  - destruct (batchOpen s 0) eqn:Hopen; [|reflexivity].
    specialize (Hids 0 (or_introl Hopen)). lia.
  - destruct (batchData s 0) eqn:Hdata; [reflexivity|].
    assert (Hne : batchData s 0 ≠ []) by (rewrite Hdata; discriminate).
    specialize (Hids 0 (or_intror Hne)). lia.
Qed.

(** X12.  A successful [openBatch] in a reachable state allocates the id
    [currentBatchId + 1]: that batch was closed and empty, is now open and
    still empty, and no other batch's flag or contents change. *)
Theorem openBatch_allocates_fresh_batch
    (env : Env) (s s' : Storage) (evs : list Event) :
  reachable s ->
  exec env OpenBatch s = Success s' evs ->
  let id := currentBatchId s + 1 in
  currentBatchId s' = id /\
  batchOpen s id = false /\
  batchOpen s' id = true /\
  batchData s' id = [] /\
  (forall b, b ≠ id -> batchOpen s' b = batchOpen s b) /\
  encryptedDataBatches s' = encryptedDataBatches s /\
  evs = [BatchOpened id].
Proof.
  intros Hreach Hexec id.
  destruct (reachable_well_formed s Hreach) as [[Hcur Hids] _].
  assert (Hfresh : batchOpen s id = false /\ batchData s id = []).
  { split.
    - destruct (batchOpen s id) eqn:Hopen; [|reflexivity].
      specialize (Hids id (or_introl Hopen)). unfold id in Hids. lia.
    - destruct (batchData s id) eqn:Hdata; [reflexivity|].
      assert (Hne : batchData s id ≠ []) by (rewrite Hdata; discriminate).
      specialize (Hids id (or_intror Hne)). unfold id in Hids. lia. }
  rewrite exec_openBatch in Hexec. cbn zeta in Hexec. fold id in Hexec.
  destruct (bool_decide _); [discriminate|].
  destruct (paused s); [discriminate|].
  destruct (negb _); [discriminate|].
  injection Hexec as <- <-.
  split; [reflexivity|]. split; [apply Hfresh|]. split.
  { rewrite batchOpen_insert. now destruct (decide _). }
  split; [exact (proj2 Hfresh)|]. split; [|split; reflexivity].
  intros b Hne. rewrite batchOpen_insert. destruct (decide _); [congruence|reflexivity].
Qed.

(** X13.  Closing is one-shot and local: after a successful
    [closeBatch(b)] a second one by the owner is rejected with
    [InvalidBatch]; the call that succeeded changed no other batch's flag
    and no batch's contents. *)
Theorem closeBatch_once (env : Env) (b : Z) (s s' : Storage) (evs : list Event) :
  exec env (CloseBatch b) s = Success s' evs ->
  batchOpen s b = true /\ batchOpen s' b = false /\
  (forall b', b' ≠ b -> batchOpen s' b' = batchOpen s b') /\
  encryptedDataBatches s' = encryptedDataBatches s /\
  (forall env', msg_sender env' = owner s' ->
                exec env' (CloseBatch b) s' = Failure InvalidBatch).
Proof.
  intros Hexec. apply exec_success in Hexec. destruct Hexec as (_ & Hopen & ->).
  assert (Hclosed : batchOpen (set_isBatchOpen (<[b:=false]> (isBatchOpen s)) s) b = false).
  { rewrite batchOpen_insert. now destruct (decide _). }
  split; [exact Hopen|]. split; [exact Hclosed|]. split; [|split; [reflexivity|]].
  - intros b' Hne. rewrite batchOpen_insert. destruct (decide _); [congruence|reflexivity].
  - intros env' Ho. rewrite exec_closeBatch.
    rewrite bool_decide_eq_false_2 by (intros H; now apply H).
    now rewrite Hclosed.
Qed.
End Batches.

(** ** Requests and callbacks over runs *)

Section Requests.
Context {L : FHE.Lib}.

Lemma byte_bound (b : byte) : 0 <= Z.of_N (Byte.to_N b) <= 255.
Proof. destruct b; cbn; lia. Qed.

Lemma be_fold_bound (bs : list byte) (acc : Z) :
  0 <= acc ->
  0 <= fold_left (fun a b => a * 256 + Z.of_N (Byte.to_N b)) bs acc
    < (acc + 1) * 256 ^ Z.of_nat (length bs).
Proof.
  revert acc. induction bs as [|b bs IH]; intros acc Hacc.
  - cbn. lia.
  - cbn [fold_left length]. pose proof (byte_bound b) as Hb.
    specialize (IH (acc * 256 + Z.of_N (Byte.to_N b)) ltac:(lia)).
    rewrite Nat2Z.inj_succ, Z.pow_succ_r by lia.
    assert (Hpow : 0 < 256 ^ Z.of_nat (length bs)) by (apply Z.pow_pos_nonneg; lia).
    split; [lia|]. nia.
Qed.

(** The word [abi.decode] reads is a uint256. *)
Lemma be_to_Z_word (cleartexts : list byte) :
  0 <= be_to_Z (take 32 cleartexts) <= MAX_UINT256.
Proof.
  unfold be_to_Z, MAX_UINT256.
  pose proof (be_fold_bound (take 32 cleartexts) 0 ltac:(lia)) as [Hlo Hhi].
  assert (Hlen : (length (take 32 cleartexts) <= 32)%nat) by (rewrite length_take; lia).
  assert (Hpow : 256 ^ Z.of_nat (length (take 32 cleartexts)) <= 256 ^ 32)
    by (apply Z.pow_le_mono_r; lia).
  change (256 ^ 32) with (2 ^ 256) in Hpow. lia.
Qed.

(** X14.  In every reachable state a stored context that is not yet
    processed names a closed batch that holds values, and its stored
    [stateHash] is the digest of that batch as it is now. *)
Theorem pending_request_bound_to_batch (s : Storage) (r : Z) (c : DecryptionContext) :
  reachable s ->
  decryptionContexts s !! r = Some c -> processed c = false ->
  batchOpen s (batchId c) = false /\
  batchData s (batchId c) ≠ [] /\
  stateHash c = digest_of_batch s (batchId c).
Proof.
  intros Hreach. exact (proj2 (reachable_well_formed s Hreach) r c).
Qed.

(** X15.  In a reachable state the callback for a request id that has a
    stored context is never rejected with [StateMismatch], whoever calls
    and whatever cleartext and proof it carries. *)
Theorem issued_request_never_mismatches
    (env : Env) (r : Z) (c : DecryptionContext) (cleartexts proof : list byte) (s : Storage) :
  reachable s ->
  decryptionContexts s !! r = Some c ->
  exec env (MyCallback r cleartexts proof) s ≠ Failure StateMismatch.
Proof.
  intros Hreach Hc. rewrite exec_myCallback. cbn zeta.
  rewrite (contextOf_Some _ _ _ Hc).
  destruct (processed c) eqn:Hp; [discriminate|].
  destruct (proj2 (reachable_well_formed s Hreach) r c Hc Hp) as (_ & _ & Hhash).
  rewrite bool_decide_eq_false_2 by (intros H; now apply H).
  repeat case_match; discriminate.
Qed.

(** X16.  In a reachable state the callback for a pending request
    completes as soon as its proof verifies and its cleartext has the 32
    bytes of a word: the context becomes processed, keeping its batch and
    digest, and the one event carries the batch id and the first word of
    the cleartext, a uint256. *)
Theorem pending_callback_completes
    (env : Env) (r : Z) (c : DecryptionContext) (cleartexts proof : list byte) (s : Storage) :
  reachable s ->
  decryptionContexts s !! r = Some c -> processed c = false ->
  FHE.checkSignatures r cleartexts proof = true ->
  (32 <= length cleartexts)%nat ->
  exec env (MyCallback r cleartexts proof) s
  = Success
      (set_decryptionContexts
         (<[r := mkContext (batchId c) (stateHash c) true]> (decryptionContexts s)) s)
      [DecryptionCompleted r (batchId c) (be_to_Z (take 32 cleartexts))] /\
  0 <= be_to_Z (take 32 cleartexts) <= MAX_UINT256.
Proof.
  intros Hreach Hc Hp Hsig Hlen. split; [|apply be_to_Z_word].
  destruct (proj2 (reachable_well_formed s Hreach) r c Hc Hp) as (_ & _ & Hhash).
  rewrite exec_myCallback. cbn zeta. rewrite (contextOf_Some _ _ _ Hc), Hp.
  rewrite bool_decide_eq_false_2 by (intros H; now apply H).
  rewrite Hsig. cbn [negb].
  now rewrite bool_decide_eq_false_2 by lia.
Qed.

(** X17.  A callback with a verified proof whose cleartext is shorter
    than one word is rejected and does not use up the request: the
    context stays unprocessed. *)
Theorem short_cleartext_rejected
    (env : Env) (r : Z) (cleartexts proof : list byte) (s : Storage) :
  processed (contextOf s r) = false ->
  digest_of_batch s (batchId (contextOf s r)) = stateHash (contextOf s r) ->
  FHE.checkSignatures r cleartexts proof = true ->
  (length cleartexts < 32)%nat ->
  exec env (MyCallback r cleartexts proof) s = Failure DecodeFailure /\
  processed (contextOf (next_state env (MyCallback r cleartexts proof) s) r) = false.
Proof.
  intros Hp Hhash Hsig Hlen.
  assert (Hexec : exec env (MyCallback r cleartexts proof) s = Failure DecodeFailure).
  { rewrite exec_myCallback. cbn zeta. rewrite Hp.
    rewrite bool_decide_eq_false_2 by (intros H; now apply H).
    rewrite Hsig. cbn [negb]. now rewrite bool_decide_eq_true_2. }
  split; [exact Hexec|]. unfold next_state. now rewrite Hexec.
Qed.

(** X18.  A successful callback writes one thing: the [processed] flag of
    its own context.  That context keeps its batch id and digest, every
    other context and every other part of the storage is untouched. *)
Theorem myCallback_writes_only_processed
    (env : Env) (r : Z) (cleartexts proof : list byte) (s s' : Storage) (evs : list Event) :
  exec env (MyCallback r cleartexts proof) s = Success s' evs ->
  contextOf s' r = mkContext (batchId (contextOf s r)) (stateHash (contextOf s r)) true /\
  (forall r', r' ≠ r -> decryptionContexts s' !! r' = decryptionContexts s !! r') /\
  same_administration s s' /\
  encryptedDataBatches s' = encryptedDataBatches s /\
  lastSubmissionTime s' = lastSubmissionTime s /\
  lastDecryptionRequestTime s' = lastDecryptionRequestTime s.
Proof.
  intros Hexec. apply exec_success in Hexec.
  destruct Hexec as (_ & _ & _ & _ & ->).
  split; [apply contextOf_insert|]. split.
  - intros r' Hne. cbn. now rewrite lookup_insert_ne.
  - unfold same_administration. cbn. tauto.
Qed.

Lemma context_next (env : Env) (call : Call) (s : Storage) (r : Z) (c : DecryptionContext) :
  oracle_fresh s env call ->
  decryptionContexts s !! r = Some c ->
  exists c', decryptionContexts (next_state env call s) !! r = Some c' /\
             batchId c' = batchId c /\ stateHash c' = stateHash c /\
             (processed c = true -> processed c' = true).
Proof.
  intros Hfresh Hc.
  assert (Hsame : exists c', decryptionContexts s !! r = Some c' /\
             batchId c' = batchId c /\ stateHash c' = stateHash c /\
             (processed c = true -> processed c' = true)) by (exists c; tauto).
  destruct (next_state_cases env call s) as [->|Hok]; [exact Hsame|].
  revert Hok. generalize (next_state env call s) as s'. intros s'.
  destruct call as [newOwner|provider|provider|p|c0| |b|b dataPoints|b|r0 cl pf];
    cbn [success_of].
  1-7: intros Hok; written_state Hok; exact Hsame.
  - intros (_ & _ & _ & ->).
    destruct (push_all_fields b dataPoints (stamp_submission env s)) as (_ & _ & _ & ->).
    exact Hsame.
  - intros (_ & _ & _ & ->). cbn in Hfresh. cbn.
    rewrite lookup_insert_ne by congruence. exact Hsame.
  - intros (_ & _ & _ & _ & ->). cbn. rewrite lookup_insert.
    destruct (decide (r0 = r)) as [->|_]; [|exact Hsame].
    rewrite (contextOf_Some _ _ _ Hc). eexists. split; [reflexivity|]. cbn. tauto.
Qed.

(** X19.  A stored context is never deleted or rebound: over any run it
    stays stored with the same batch id and the same [stateHash], and once
    processed it stays processed. *)
Theorem contexts_never_rebound (s s' : Storage) (r : Z) (c : DecryptionContext) :
  rtc step s s' ->
  decryptionContexts s !! r = Some c ->
  exists c', decryptionContexts s' !! r = Some c' /\
             batchId c' = batchId c /\ stateHash c' = stateHash c /\
             (processed c = true -> processed c' = true).
Proof.
  intros Hrun. revert c. induction Hrun as [s|s s1 s' Hstep _ IH]; intros c Hc.
  - exists c. tauto.
  - destruct Hstep as [env call s _ Hfresh].
    destruct (context_next env call s r c Hfresh Hc) as (c1 & Hc1 & Hb1 & Hh1 & Hp1).
    destruct (IH c1 Hc1) as (c' & Hc' & Hb' & Hh' & Hp').
    exists c'. split; [exact Hc'|]. split; [congruence|]. split; [congruence|]. tauto.
Qed.

(** X20.  Past its gates, [requestDiscovery] is rejected with
    [InvalidBatch] exactly when the batch is open or holds no value.
    When it succeeds it stores a pending context under the oracle's id,
    stamps the caller's request time, and touches neither the batches nor
    the submission times nor the administration. *)
Theorem requestDiscovery_needs_closed_batch_with_values
    (env : Env) (b : Z) (s : Storage) :
  passes_request_gates env s ->
  (exec env (RequestDiscovery b) s = Failure InvalidBatch
   <-> batchOpen s b = true \/ batchData s b = []) /\
  (forall s' evs,
      exec env (RequestDiscovery b) s = Success s' evs ->
      contextOf s' (oracle_requestId env) = mkContext b (digest_of_batch s b) false /\
      lastRequestOf s' (msg_sender env) = block_timestamp env /\
      encryptedDataBatches s' = encryptedDataBatches s /\
      lastSubmissionTime s' = lastSubmissionTime s /\
      same_administration s s' /\
      evs = [DecryptionRequested (oracle_requestId env) b]).
Proof.
  intros (Hprov & Hpause & Hmax & Hready). split.
  - rewrite exec_requestDiscovery. cbn zeta. rewrite Hprov, Hpause. cbn [negb].
    rewrite (proj2 (Z.leb_le _ _) Hmax). cbn [negb].
    rewrite (proj2 (Z.ltb_ge _ _) Hready).
    destruct (batchOpen s b); [tauto|].
    destruct (batchData s b) as [|v vs]; cbn [length].
    + rewrite bool_decide_eq_true_2 by reflexivity. tauto.
    + rewrite bool_decide_eq_false_2 by discriminate.
      split; [discriminate|]. intros [?|?]; discriminate.
  - intros s' evs Hexec.
    assert (Hevs : evs = [DecryptionRequested (oracle_requestId env) b]).
    { rewrite exec_requestDiscovery in Hexec. cbn zeta in Hexec.
      repeat case_match; try discriminate. now injection Hexec as _ <-. }
    apply exec_success in Hexec. destruct Hexec as (_ & _ & _ & ->).
    split; [apply contextOf_insert|]. split.
    { unfold lastRequestOf, mget. cbn. now rewrite lookup_insert_eq. }
    unfold same_administration. cbn. tauto.
Qed.

(** X21.  The two cooldowns are kept apart: a successful [submitData]
    changes nobody's request time and no other address's submission time;
    a successful [requestDiscovery] changes nobody's submission time and no
    other address's request time. *)
Theorem cooldowns_are_independent
    (env : Env) (b : Z) (dataPoints : list Z) (s s' : Storage) (evs : list Event) :
  (exec env (SubmitData b dataPoints) s = Success s' evs ->
   lastDecryptionRequestTime s' = lastDecryptionRequestTime s /\
   (forall a, a ≠ msg_sender env -> lastSubmissionOf s' a = lastSubmissionOf s a)) /\
  (exec env (RequestDiscovery b) s = Success s' evs ->
   lastSubmissionTime s' = lastSubmissionTime s /\
   (forall a, a ≠ msg_sender env -> lastRequestOf s' a = lastRequestOf s a)).
Proof.
  split; intros Hexec; apply exec_success in Hexec.
  - destruct Hexec as (_ & _ & _ & ->).
    destruct (push_all_fields b dataPoints (stamp_submission env s))
      as (_ & Hsub & Hreq & _).
    split; [exact Hreq|]. intros a Hne. unfold lastSubmissionOf. rewrite Hsub.
    unfold mget. cbn. now rewrite lookup_insert_ne by congruence.
  - destruct Hexec as (_ & _ & _ & ->). split; [reflexivity|].
    intros a Hne. unfold lastRequestOf, mget. cbn.
    now rewrite lookup_insert_ne by congruence.
Qed.

(** X22.  The check-and-stamp of [decryptionRequestRateLimited] answers
    [CooldownActive] exactly when [lastRequest + cooldownSeconds] fits in
    a uint256 and [now] is below it; it passes exactly when the sum fits
    and [now] has reached it, and then records [now]; a rejected attempt
    writes nothing.  After a successful [requestDiscovery] at [t1] a
    request by the same provider at [t2 < t1 + C] is rejected with
    [CooldownActive] when [t1 + C] fits, and at [t2 >= t1 + C] it is past
    the gates. *)
Theorem request_rate_limiter :
  (forall (env : Env) (m : Machine),
      let ready := lastRequestOf (storage m) (msg_sender env) + cooldownSeconds (storage m) in
      let r := decryptionRequestRateLimited env (ret tt) m in
      (fst r = Revert CooldownActive <->
         ready <= MAX_UINT256 /\ block_timestamp env < ready) /\
      (fst r = Ok tt <-> ready <= MAX_UINT256 /\ ready <= block_timestamp env) /\
      (fst r = Ok tt -> snd r = mkMachine (stamp_request env (storage m)) (log m)) /\
      (forall e, fst r = Revert e -> snd r = m)) /\
  (forall (env1 env2 : Env) (b : Z) (s s1 : Storage) (evs : list Event),
      exec env1 (RequestDiscovery b) s = Success s1 evs ->
      msg_sender env2 = msg_sender env1 ->
      block_timestamp env2 <= MAX_UINT256 ->
      let C := cooldownSeconds s in
      (forall b',
          block_timestamp env1 + C <= MAX_UINT256 ->
          block_timestamp env2 < block_timestamp env1 + C ->
          exec env2 (RequestDiscovery b') s1 = Failure CooldownActive) /\
      (block_timestamp env1 + C <= block_timestamp env2 ->
          passes_request_gates env2 s1)).
Proof.
  split.
  - intros env m ready r. subst r. rewrite decryptionRequestRateLimited_run. cbn zeta.
    fold ready.
    destruct (ready <=? MAX_UINT256) eqn:Hmax; cbn [negb].
    + apply Z.leb_le in Hmax.
      destruct (block_timestamp env <? ready) eqn:Hready; cbn.
      * apply Z.ltb_lt in Hready. intuition (first [discriminate | congruence | lia]).
      * apply Z.ltb_ge in Hready. intuition (first [discriminate | congruence | lia]).
    + apply Z.leb_gt in Hmax. cbn. intuition (first [discriminate | congruence | lia]).
  - intros env1 env2 b s s1 evs Hexec Hsender Hts2 C.
    apply exec_success in Hexec.
    destruct Hexec as ((Hprov & Hpause & Hmax & Hready) & _ & _ & ->).
    set (s1 := set_decryptionContexts _ _).
    assert (Hlast : lastRequestOf s1 (msg_sender env2) = block_timestamp env1).
    { unfold lastRequestOf, mget. cbn. now rewrite Hsender, lookup_insert_eq. }
    split.
    + intros b' Hfit Hearly. rewrite exec_requestDiscovery. cbn zeta. rewrite Hlast.
      change (providerOf s1 (msg_sender env2)) with (providerOf s (msg_sender env2)).
      change (paused s1) with (paused s). change (cooldownSeconds s1) with C.
      rewrite Hsender, Hprov, Hpause. cbn [negb].
      rewrite (proj2 (Z.leb_le _ _) Hfit). cbn [negb].
      now rewrite (proj2 (Z.ltb_lt _ _) Hearly).
    + intros Hlate. unfold passes_request_gates. rewrite Hlast.
      change (providerOf s1 (msg_sender env2)) with (providerOf s (msg_sender env2)).
      change (paused s1) with (paused s). change (cooldownSeconds s1) with C.
      rewrite Hsender. repeat split; try assumption; lia.
Qed.

(** X23.  Every call that succeeds emits exactly one event. *)
Theorem one_event_per_call (env : Env) (call : Call) (s s' : Storage) (evs : list Event) :
  exec env call s = Success s' evs -> length evs = 1%nat.
Proof.
  destruct call; rewrite_exec; cbn zeta; split_ifs; try discriminate;
    now intros [= _ <-].
Qed.
End Requests.

(** ** Where stored values come from *)

Section Provenance.
Context {L : FHE.Lib}.

(** X24.  Values enter a batch only through a [submitData] that passed
    every check: if a call changes what batch [b] holds, it is a
    [submitData] on [b] by a provider past the pause and cooldown gates,
    on an open batch, with initialized handles only. *)
Theorem values_only_from_providers (env : Env) (call : Call) (s : Storage) (b : Z) :
  batchData (next_state env call s) b ≠ batchData s b ->
  exists dataPoints,
    call = SubmitData b dataPoints /\
    passes_submission_gates env s /\
    batchOpen s b = true /\
    forallb FHE.isInitialized dataPoints = true /\
    batchData (next_state env call s) b = batchData s b ++ dataPoints.
Proof.
  destruct (next_state_cases env call s) as [->|Hok]; [congruence|].
  revert Hok. generalize (next_state env call s) as s'. intros s'.
  destruct call as [newOwner|provider|provider|p|c| |b0|b0 dataPoints|b0|r cl pf];
    cbn [success_of].
  1-7: intros Hok; written_state Hok; intros Hne; now destruct Hne.
  - intros (Hgates & Hopen & Hall & ->) Hne.
    destruct (decide (b0 = b)) as [->|Hb].
    + exists dataPoints. rewrite batchData_push_all. tauto.
    + rewrite batchData_push_all_ne in Hne by assumption. now destruct Hne.
  - intros (_ & _ & _ & ->) Hne. now destruct Hne.
  - intros (_ & _ & _ & _ & ->) Hne. now destruct Hne.
Qed.

Lemma initialized_next (env : Env) (call : Call) (s : Storage) :
  (forall b v, v ∈ batchData s b -> FHE.isInitialized v = true) ->
  forall b v, v ∈ batchData (next_state env call s) b -> FHE.isInitialized v = true.
Proof.
  intros Hinit b v Hin.
  destruct (decide (batchData (next_state env call s) b = batchData s b)) as [Heq|Hne].
  - rewrite Heq in Hin. exact (Hinit b v Hin).
  - destruct (next_state_cases env call s) as [Hsame|Hok]; [now rewrite Hsame in Hne|].
    revert Hin Hne Hok. generalize (next_state env call s) as s'. intros s' Hin Hne.
    destruct call as [newOwner|provider|provider|p|c| |b0|b0 dataPoints|b0|r cl pf];
      cbn [success_of].
    1-7: intros Hok; written_state Hok; now destruct Hne.
    + intros (_ & _ & Hall & ->).
      destruct (decide (b0 = b)) as [->|Hb].
      * rewrite batchData_push_all in Hin. apply elem_of_app in Hin.
        destruct Hin as [Hin|Hin]; [exact (Hinit b v Hin)|].
        rewrite forallb_forall in Hall. apply Hall. now apply list_elem_of_In.
      * rewrite batchData_push_all_ne in Hne by assumption. now destruct Hne.
    + intros (_ & _ & _ & ->). now destruct Hne.
    + intros (_ & _ & _ & _ & ->). now destruct Hne.
Qed.

(** X25.  In every reachable state every handle stored in a batch is
    initialized. *)
Theorem stored_handles_initialized (s : Storage) (b v : Z) :
  reachable s -> v ∈ batchData s b -> FHE.isInitialized v = true.
Proof.
  intros Hreach. revert b v.
  induction Hreach as [env _|s s' _ IH Hstep].
  - intros b v Hin. rewrite deploy_state in Hin. cbn in Hin. inversion Hin.
  - destruct Hstep as [env call s _ _]. now apply initialized_next.
Qed.
End Provenance.

(** ** The concrete run, continued *)

Section DemoMore.
Import Demo.
#[local] Existing Instance Mock.lib.

Ltac demo_wf :=
  unfold wf_env; repeat split;
  first [apply Z.ltb_lt | apply Z.leb_le]; vm_compute; reflexivity.

Ltac demo_step :=
  apply reachable_after; [| demo_wf | first [exact I | vm_compute; reflexivity]].

Ltac demo_gates :=
  repeat split; [vm_compute; reflexivity .. | |];
  apply Z.leb_le; vm_compute; reflexivity.

Lemma s_admitted_reachable : reachable s_admitted.
Proof.
  unfold s_admitted, s_cooldown, s_deployed. repeat demo_step.
  apply reachable_deploy. demo_wf.
Qed.

Lemma s_closed_reachable : reachable s_closed.
Proof. unfold s_closed. demo_step. apply s_submitted_reachable. Qed.

Lemma s_requested_reachable : reachable s_requested.
Proof. unfold s_requested. demo_step. apply s_closed_reachable. Qed.

Lemma s_requested_context :
  decryptionContexts s_requested !! 7 = Some (mkContext 1 55839718 false).
Proof. vm_compute. reflexivity. Qed.

Lemma owner_gate_first_instance :
  exec (by_ stranger 1040) (SetPaused true) s_open = Failure NotOwner /\
  next_state (by_ stranger 1040) (SetPaused true) s_open = s_open.
Proof.
  apply (owner_gate_first (by_ stranger 1040) (SetPaused true) s_open).
  - vm_compute. discriminate.
  - reflexivity.
Defined.

Lemma non_owner_keeps_administration_instance :
  same_administration s_open (next_state (by_ provider 1100) (SubmitData 1 values) s_open).
Proof.
  apply (non_owner_keeps_administration (by_ provider 1100) (SubmitData 1 values) s_open).
  vm_compute. discriminate.
Defined.

Lemma provider_gate_first_instance :
  exec (by_ stranger 1200) (RequestDiscovery 1) s_closed = Failure NotProvider /\
  next_state (by_ stranger 1200) (RequestDiscovery 1) s_closed = s_closed.
Proof.
  apply (provider_gate_first (by_ stranger 1200) (RequestDiscovery 1) s_closed).
  - vm_compute. reflexivity.
  - reflexivity.
Defined.

Lemma provider_add_remove_instance :
  exists s1 s2,
    exec (by_ deployer 1020) (AddProvider provider) s_cooldown
    = Success s1 [ProviderAdded provider] /\
    providerOf s1 provider = true /\
    exec (by_ deployer 1025) (RemoveProvider provider) s1
    = Success s2 [ProviderRemoved provider] /\
    (forall q, providerOf s1 q = if decide (provider = q) then true
                                 else providerOf s_cooldown q) /\
    (forall q, providerOf s2 q = if decide (provider = q) then false
                                 else providerOf s_cooldown q).
Proof.
  apply (provider_add_remove (by_ deployer 1020) (by_ deployer 1025) provider s_cooldown).
  - vm_compute. reflexivity.
  - vm_compute. reflexivity.
  - vm_compute. discriminate.
Defined.

Lemma null_address_never_provider_instance :
  providerOf s_open 0 = false /\
  forall env, msg_sender env = owner s_open ->
              exec env (AddProvider 0) s_open = Failure InvalidParameter.
Proof. exact (null_address_never_provider s_open s_open_reachable). Defined.

Lemma ownership_handover_instance :
  exec (by_ deployer 1400) (TransferOwnership stranger) s_completed
  = Success (set_owner stranger s_completed)
            [OwnershipTransferred (owner s_completed) stranger] /\
  exec (by_ deployer 1410) OpenBatch (set_owner stranger s_completed) = Failure NotOwner /\
  exec (by_ stranger 1420) (SetPaused true) (set_owner stranger s_completed)
  = Success (set_paused true (set_owner stranger s_completed)) [PauseToggled true].
Proof.
  destruct (ownership_handover (by_ deployer 1400) stranger s_completed)
    as (Hmove & Hold & Hnew).
  - vm_compute. reflexivity.
  - vm_compute. discriminate.
  - split; [exact Hmove|]. split.
    + apply Hold; [vm_compute; reflexivity | reflexivity].
    + apply Hnew. reflexivity.
Defined.

Lemma paused_freezes_batches_instance :
  encryptedDataBatches (next_state (by_ provider 1170) (SubmitData 1 values) s_paused)
  = encryptedDataBatches s_paused /\
  currentBatchId (next_state (by_ deployer 1170) OpenBatch s_paused)
  = currentBatchId s_paused.
Proof.
  split.
  - apply (paused_freezes_batches (by_ provider 1170) (SubmitData 1 values) s_paused).
    vm_compute. reflexivity.
  - apply (paused_freezes_batches (by_ deployer 1170) OpenBatch s_paused).
    vm_compute. reflexivity.
Defined.

Lemma pause_round_trip_instance :
  exec (by_ deployer 1160) (SetPaused true) s_closed
  = Success (set_paused true s_closed) [PauseToggled true] /\
  exec (by_ deployer 1165) (SetPaused false) (set_paused true s_closed)
  = Success s_closed [PauseToggled false].
Proof.
  apply (pause_round_trip (by_ deployer 1160) (by_ deployer 1165) s_closed);
    vm_compute; reflexivity.
Defined.

Lemma rtc_after (env : Env) (call : Call) (s s1 : Storage) :
  rtc step s s1 -> wf_env env -> oracle_fresh s1 env call ->
  rtc step s (after env call s1).
Proof.
  intros Hrun Hwf Hfresh. eapply rtc_r; [exact Hrun|]. now apply step_exec.
Qed.

Ltac demo_run :=
  apply rtc_after; [| demo_wf | first [exact I | vm_compute; reflexivity]].

Lemma run_open_to_requested : rtc step s_open s_requested.
Proof.
  unfold s_requested, s_closed, s_submitted. do 3 demo_run. apply rtc_refl.
Qed.

Lemma batches_append_only_instance :
  batchData s_open 1 `prefix_of` batchData s_requested 1.
Proof. exact (batches_append_only s_open s_requested 1 run_open_to_requested). Defined.

(** Two batches opened in one run, with the submission, the close and the
    request between them: ids 1 and 2, the counter going from 0 to 2. *)
Lemma batch_counter_monotone_instance :
  currentBatchId s_admitted = 0 /\
  currentBatchId s_admitted <= currentBatchId (after (by_ deployer 1250) OpenBatch s_requested) /\
  [BatchOpened 1] = [BatchOpened (currentBatchId s_open)] /\
  [BatchOpened 2]
  = [BatchOpened (currentBatchId (after (by_ deployer 1250) OpenBatch s_requested))] /\
  currentBatchId s_open
  < currentBatchId (after (by_ deployer 1250) OpenBatch s_requested).
Proof.
  destruct batch_counter_monotone as (Hrun & _ & Htwice).
  destruct (Htwice (by_ deployer 1030) (by_ deployer 1250)
                   s_admitted s_open s_requested
                   (after (by_ deployer 1250) OpenBatch s_requested)
                   [BatchOpened 1] [BatchOpened 2])
    as (H1 & H2 & _ & Hlt).
  - vm_compute. reflexivity.
  - exact run_open_to_requested.
  - vm_compute. reflexivity.
  - split; [vm_compute; reflexivity|]. split.
    + apply Hrun. eapply rtc_l.
      * apply (step_exec (by_ deployer 1030) OpenBatch s_admitted); [demo_wf | exact I].
      * apply rtc_after; [exact run_open_to_requested | demo_wf | exact I].
    + split; [exact H1|]. split; [exact H2 | exact Hlt].
Defined.

Lemma batch_ids_allocated_instance :
  0 <= currentBatchId s_submitted <= MAX_UINT256 /\
  (forall b, batchOpen s_submitted b = true \/ batchData s_submitted b ≠ [] ->
             1 <= b <= currentBatchId s_submitted) /\
  batchOpen s_submitted 0 = false /\ batchData s_submitted 0 = [].
Proof. exact (batch_ids_allocated s_submitted s_submitted_reachable). Defined.

Lemma openBatch_allocates_fresh_batch_instance :
  currentBatchId s_open = 1 /\ batchOpen s_open 1 = true /\ batchData s_open 1 = [].
Proof.
  destruct (openBatch_allocates_fresh_batch (by_ deployer 1030) s_admitted s_open
              [BatchOpened 1] s_admitted_reachable) as (Hid & _ & Hopen & Hdata & _).
  - vm_compute. reflexivity.
  - split; [exact Hid|]. split; [exact Hopen | exact Hdata].
Defined.

Lemma closeBatch_once_instance :
  batchOpen s_closed 1 = false /\
  exec (by_ deployer 1155) (CloseBatch 1) s_closed = Failure InvalidBatch.
Proof.
  destruct (closeBatch_once (by_ deployer 1150) 1 s_submitted s_closed [BatchClosed 1])
    as (_ & Hclosed & _ & _ & Hagain).
  - vm_compute. reflexivity.
  - split; [exact Hclosed|]. apply Hagain. vm_compute. reflexivity.
Defined.

Lemma pending_request_bound_to_batch_instance :
  batchOpen s_requested 1 = false /\
  batchData s_requested 1 ≠ [] /\
  55839718 = digest_of_batch s_requested 1.
Proof.
  exact (pending_request_bound_to_batch s_requested 7 (mkContext 1 55839718 false)
           s_requested_reachable s_requested_context eq_refl).
Defined.

Lemma issued_request_never_mismatches_instance :
  exec (by_ stranger 1300) (MyCallback 7 (Mock.word 1) []) s_requested
  ≠ Failure StateMismatch.
Proof.
  exact (issued_request_never_mismatches (by_ stranger 1300) 7 _ (Mock.word 1) []
           s_requested s_requested_reachable s_requested_context).
Defined.

Lemma pending_callback_completes_instance :
  exec (by_ stranger 1300) (MyCallback 7 (Mock.word 20000) [x01]) s_requested
  = Success
      (set_decryptionContexts
         (<[7 := mkContext 1 55839718 true]> (decryptionContexts s_requested)) s_requested)
      [DecryptionCompleted 7 1 (be_to_Z (take 32 (Mock.word 20000)))] /\
  0 <= be_to_Z (take 32 (Mock.word 20000)) <= MAX_UINT256.
Proof.
  apply (pending_callback_completes (by_ stranger 1300) 7 (mkContext 1 55839718 false)
           (Mock.word 20000) [x01] s_requested s_requested_reachable s_requested_context).
  - reflexivity.
  - reflexivity.
  - vm_compute. lia.
Defined.

Lemma short_cleartext_rejected_instance :
  exec (by_ stranger 1300) (MyCallback 7 [x4e; x20] [x01]) s_requested
  = Failure DecodeFailure /\
  processed (contextOf (next_state (by_ stranger 1300) (MyCallback 7 [x4e; x20] [x01])
                                   s_requested) 7) = false.
Proof.
  apply (short_cleartext_rejected (by_ stranger 1300) 7 [x4e; x20] [x01] s_requested).
  - vm_compute. reflexivity.
  - vm_compute. reflexivity.
  - reflexivity.
  - vm_compute. lia.
Defined.

Lemma myCallback_writes_only_processed_instance :
  contextOf s_completed 7 = mkContext 1 55839718 true /\
  encryptedDataBatches s_completed = encryptedDataBatches s_requested.
Proof.
  destruct (myCallback_writes_only_processed (by_ stranger 1300) 7 (Mock.word 20000) [x01]
              s_requested s_completed [DecryptionCompleted 7 1 20000])
    as (Hctx & _ & _ & Hdata & _).
  - vm_compute. reflexivity.
  - split; [|exact Hdata]. rewrite Hctx. vm_compute. reflexivity.
Defined.

Lemma contexts_never_rebound_instance :
  exists c', decryptionContexts s_completed !! 7 = Some c' /\
             batchId c' = 1 /\ stateHash c' = 55839718 /\
             (false = true -> processed c' = true).
Proof.
  apply (contexts_never_rebound s_requested s_completed 7 (mkContext 1 55839718 false)).
  - unfold s_completed. demo_run. apply rtc_refl.
  - exact s_requested_context.
Defined.

Lemma requestDiscovery_needs_closed_batch_with_values_instance :
  (exec (by_ provider 1120) (RequestDiscovery 1) s_submitted = Failure InvalidBatch
   <-> batchOpen s_submitted 1 = true \/ batchData s_submitted 1 = []) /\
  exec (by_ provider 1120) (RequestDiscovery 1) s_submitted = Failure InvalidBatch.
Proof.
  destruct (requestDiscovery_needs_closed_batch_with_values
              (by_ provider 1120) 1 s_submitted) as [Hiff _].
  - demo_gates.
  - split; [exact Hiff|]. apply Hiff. left. vm_compute. reflexivity.
Defined.

Lemma cooldowns_are_independent_instance :
  lastDecryptionRequestTime s_submitted = lastDecryptionRequestTime s_open /\
  lastSubmissionTime s_requested = lastSubmissionTime s_closed.
Proof.
  split.
  - apply (proj1 (cooldowns_are_independent (by_ provider 1100) 1 values s_open s_submitted
                    [DataSubmitted provider 1 3])).
    vm_compute. reflexivity.
  - apply (proj2 (cooldowns_are_independent (by_ provider 1200) 1 values s_closed s_requested
                    [DecryptionRequested 7 1])).
    vm_compute. reflexivity.
Defined.

Lemma request_rate_limiter_instance :
  exec (by_ provider 1230) (RequestDiscovery 1) s_requested = Failure CooldownActive /\
  passes_request_gates (by_ provider 1260) s_requested.
Proof.
  destruct request_rate_limiter as [_ Htwice].
  assert (Hfirst : exec (by_ provider 1200) (RequestDiscovery 1) s_closed
                   = Success s_requested [DecryptionRequested 7 1])
    by (vm_compute; reflexivity).
  split.
  - refine (proj1 (Htwice (by_ provider 1200) (by_ provider 1230) 1
                          s_closed s_requested _ Hfirst eq_refl _) 1 _ _).
    + apply Z.leb_le. vm_compute. reflexivity.
    + apply Z.leb_le. vm_compute. reflexivity.
    + apply Z.ltb_lt. vm_compute. reflexivity.
  - refine (proj2 (Htwice (by_ provider 1200) (by_ provider 1260) 1
                          s_closed s_requested _ Hfirst eq_refl _) _).
    + apply Z.leb_le. vm_compute. reflexivity.
    + apply Z.leb_le. vm_compute. reflexivity.
Defined.

Lemma one_event_per_call_instance :
  length [DataSubmitted provider 1 3] = 1%nat.
Proof.
  apply (one_event_per_call (by_ provider 1100) (SubmitData 1 values) s_open s_submitted).
  vm_compute. reflexivity.
Defined.

Lemma values_only_from_providers_instance :
  exists dataPoints,
    SubmitData 1 values = SubmitData 1 dataPoints /\
    passes_submission_gates (by_ provider 1100) s_open /\
    batchOpen s_open 1 = true /\
    forallb FHE.isInitialized dataPoints = true /\
    batchData (next_state (by_ provider 1100) (SubmitData 1 values) s_open) 1
    = batchData s_open 1 ++ dataPoints.
Proof.
  apply (values_only_from_providers (by_ provider 1100) (SubmitData 1 values) s_open 1).
  vm_compute. discriminate.
Defined.

Lemma stored_handles_initialized_instance :
  FHE.isInitialized (Mock.enc 20) = true.
Proof.
  apply (stored_handles_initialized s_submitted 1 (Mock.enc 20) s_submitted_reachable).
  vm_compute. apply list_elem_of_In. cbn. auto.
Defined.
End DemoMore.
